(** * Voting application ([app.py]): data model, request handlers and
      the voting-integrity properties.

    The relational store is a record of four tables (lists of rows in rowid
    order) plus the set of files below [UPLOAD_FOLDER].  Every route of
    [app.py] that writes the store, and the pages that show votes and
    results, is a function [Store -> inputs -> Store * reply]; a request
    that raises leaves the tables as they were (the session is rolled back)
    and answers [Err ServerError]. *)

From Stdlib Require Import String Ascii.
From Stdlib Require Import List Bool Arith NArith ZArith Lia.
From Stdlib Require Import Permutation Sorted.
Import ListNotations.

(* ------------------------------------------------------------------ *)
(** ** Python values *)

(** A Python [str]: the sequence of its code points. *)
Definition pystr := list N.

(** An ASCII literal as a [pystr]. *)
Definition py (s : string) : pystr := map N_of_ascii (list_ascii_of_string s).

Fixpoint str_eqb (a b : pystr) : bool :=
  match a, b with
  | [], [] => true
  | x :: a', y :: b' => N.eqb x y && str_eqb a' b'
  | _, _ => false
  end.

(** Equality of two values that may be [None]; on a column this is what
    [filter_by(col=value)] tests ([col IS NULL] when the value is [None]). *)
Definition opt_eqb (a b : option pystr) : bool :=
  match a, b with
  | None, None => true
  | Some x, Some y => str_eqb x y
  | _, _ => false
  end.

(** Truth value of an optional string ([if user.id_proof_image:]). *)
Definition truthy (o : option pystr) : bool :=
  match o with
  | Some (_ :: _) => true
  | _ => false
  end.

(** [f"{x}"] of a value that may be [None]. *)
Definition fmt (o : option pystr) : pystr :=
  match o with
  | Some s => s
  | None => py "None"
  end.

(* ------------------------------------------------------------------ *)
(** ** Library functions the application calls

    None of these is code of the repository; they are taken as given.
    [None] as a result stands for a raised exception. *)

Record Platform := {
  (** code points above ASCII that [\d] of [re] accepts (Unicode Nd) *)
  unicode_Nd : N -> bool;
  (** [werkzeug.utils.secure_filename] *)
  secure_filename : pystr -> pystr;
  (** [generate_password_hash(password, method="scrypt")], with its salt *)
  generate_password_hash : option pystr -> pystr -> option pystr;
  (** [check_password_hash(pwhash, password)] *)
  check_password_hash : pystr -> option pystr -> option bool;
  (** [datetime.strptime(value, "%Y-%m-%dT%H:%M")] *)
  strptime : option pystr -> option Z
}.

(* ------------------------------------------------------------------ *)
(** ** Models *)

Module User.
Record t := mk {
  id : nat;
  username : pystr;
  email : pystr;
  password : pystr;
  is_admin : bool;
  id_type : option pystr;
  id_number : option pystr;
  id_proof_image : option pystr;
  is_verified : bool
}.
End User.

Module Candidate.
Record t := mk {
  id : nat;
  name : pystr;
  party : pystr;
  bio : option pystr;
  image : option pystr
}.
End Candidate.

Module Vote.
Record t := mk {
  id : nat;
  user_id : nat;
  candidate_id : nat;
  timestamp : Z;
  confirmation_code : pystr
}.
End Vote.

Module Election.
Record t := mk {
  id : nat;
  title : pystr;
  description : option pystr;
  start_date : Z;
  end_date : Z;
  is_active : bool
}.
End Election.

(** The database and the upload folder.  [uploads] holds the paths, relative
    to [UPLOAD_FOLDER], of the files that exist. *)
Record Store := mkStore {
  users : list User.t;
  candidates : list Candidate.t;
  votes : list Vote.t;
  elections : list Election.t;
  uploads : list pystr
}.

Definition empty_store : Store := mkStore [] [] [] [] [].

Definition set_users (s : Store) (us : list User.t) : Store :=
  mkStore us (candidates s) (votes s) (elections s) (uploads s).
Definition set_candidates (s : Store) (cs : list Candidate.t) : Store :=
  mkStore (users s) cs (votes s) (elections s) (uploads s).
Definition set_votes (s : Store) (vs : list Vote.t) : Store :=
  mkStore (users s) (candidates s) vs (elections s) (uploads s).
Definition set_elections (s : Store) (es : list Election.t) : Store :=
  mkStore (users s) (candidates s) (votes s) es (uploads s).
Definition set_uploads (s : Store) (fs : list pystr) : Store :=
  mkStore (users s) (candidates s) (votes s) (elections s) fs.

(* ------------------------------------------------------------------ *)
(** ** Table primitives *)

(** The key SQLite gives a new row: one more than the largest key. *)
Definition next_id (ids : list nat) : nat := S (list_max ids).

(** [db.session.get(Model, key)]. *)
Definition get {A} (key : A -> nat) (i : nat) (rows : list A) : option A :=
  find (fun r => key r =? i) rows.

(** [db.session.delete(row)]. *)
Definition delete_row {A} (key : A -> nat) (i : nat) (rows : list A) : list A :=
  filter (fun r => negb (key r =? i)) rows.

(** Attribute assignment on the row with key [i]. *)
Definition update_row {A} (key : A -> nat) (i : nat) (f : A -> A)
    (rows : list A) : list A :=
  map (fun r => if key r =? i then f r else r) rows.

(** [os.remove(path)] when [os.path.exists(path)]. *)
Definition remove_file (p : pystr) (fs : list pystr) : list pystr :=
  filter (fun q => negb (str_eqb q p)) fs.

(** [file.save(os.path.join(..., name))]: raises when the name is empty,
    the path then being a directory. *)
Definition save_file (dir name : pystr) (fs : list pystr) : option (list pystr) :=
  match name with
  | [] => None
  | _ => Some (fs ++ [dir ++ name])
  end.

(* ------------------------------------------------------------------ *)
(** ** Replies *)

Inductive error :=
| PasswordMismatch            (* "Passwords do not match!" *)
| UsernameTaken               (* "Username already exists!" *)
| EmailTaken                  (* "Email already registered!" *)
| InvalidDocumentFormat       (* "Invalid Aadhaar number! ..." and the like *)
| DocumentAlreadyRegistered   (* "This ... is already registered!" *)
| InvalidCredentials          (* "Please check your login details ..." *)
| PendingVerification         (* "Your account is pending verification ..." at login *)
| LoginRequired               (* [@login_required] without a current user *)
| NotVerified                 (* "Your account is pending verification ..." at vote *)
| AlreadyVoted                (* "You have already voted!" *)
| CandidateNotFound           (* "Candidate not found!" at vote *)
| Unauthorized                (* "Unauthorized access!" *)
| NotFound                    (* "... not found!", "Invalid confirmation code!" *)
| ServerError.                (* an exception escaped the handler *)

Inductive reply :=
| Registered (u : User.t)
| LoggedIn (u : User.t)
| VoteCast (v : Vote.t)
| Confirmation (v : Vote.t) (c : option Candidate.t)
| VoteRecord (v : Vote.t) (c : option Candidate.t) (u : option User.t)
| Results (rows : list (Candidate.t * nat)) (total : nat)
| Saved
| Err (e : error).

(* ------------------------------------------------------------------ *)
(** ** Request inputs *)

(** The fields [register] reads from the form, the uploaded file's name
    (when the request has an [id_proof] part), and the random values the
    handler draws: the [uuid4] of the proof's file name and the salt. *)
Module RegisterForm.
Record t := mk {
  username : option pystr;
  email : option pystr;
  password : option pystr;
  confirm_password : option pystr;
  id_type : option pystr;
  id_number : option pystr;
  id_proof : option pystr;
  uuid4 : pystr;
  salt : pystr
}.
End RegisterForm.

Module CandidateForm.
Record t := mk {
  name : option pystr;
  party : option pystr;
  bio : option pystr;
  image : option pystr
}.
End CandidateForm.

Module ElectionForm.
Record t := mk {
  title : option pystr;
  description : option pystr;
  start_date : option pystr;
  end_date : option pystr;
  is_active : bool
}.
End ElectionForm.

(** The user id a session cookie carries, if any. *)
Definition session := option nat.

Section App.

Context (P : Platform).

(** [app.config["ID_VERIFICATION_REQUIRED"]]. *)
Variable ID_VERIFICATION_REQUIRED : bool.

(* ------------------------------------------------------------------ *)
(** ** Helper functions for ID verification (lines 93-108)

    The three patterns are sequences of counted character classes between
    [^] and [$]; [pattern.match] anchors at the start of the string. *)

Inductive char_class := Digit | Upper.

(** [\d] on a [str] pattern: ASCII [0-9] or a further Unicode decimal
    digit; [[A-Z]]: the code points 65 to 90. *)
Definition in_class (k : char_class) (c : N) : bool :=
  match k with
  | Digit => ((48 <=? c) && (c <=? 57))%N || ((127 <? c)%N && unicode_Nd P c)
  | Upper => ((65 <=? c) && (c <=? 90))%N
  end.

(** [k{n}] at the head of [s]: the rest of the string after the match. *)
Fixpoint match_repeat (k : char_class) (n : nat) (s : pystr) : option pystr :=
  match n with
  | O => Some s
  | S n' =>
      match s with
      | c :: s' => if in_class k c then match_repeat k n' s' else None
      | [] => None
      end
  end.

Fixpoint match_items (items : list (char_class * nat)) (s : pystr) : option pystr :=
  match items with
  | [] => Some s
  | (k, n) :: items' =>
      match match_repeat k n s with
      | Some rest => match_items items' rest
      | None => None
      end
  end.

(** [$] without [re.MULTILINE]: at the end of the string, or just before a
    newline that ends the string. *)
Definition at_dollar (rest : pystr) : bool :=
  match rest with
  | [] => true
  | [c] => (c =? 10)%N
  | _ => false
  end.

(** [bool(re.compile("^" items "$").match(s))]. *)
Definition re_match (items : list (char_class * nat)) (s : pystr) : bool :=
  match match_items items s with
  | Some rest => at_dollar rest
  | None => false
  end.

Definition validate_aadhaar (aadhaar_number : pystr) : bool :=
  re_match [(Digit, 12)] aadhaar_number.

Definition validate_voter_id (voter_id : pystr) : bool :=
  re_match [(Upper, 3); (Digit, 7)] voter_id.

Definition validate_pan (pan_number : pystr) : bool :=
  re_match [(Upper, 5); (Digit, 4); (Upper, 1)] pan_number.

(* ------------------------------------------------------------------ *)
(** ** Sessions *)

(** [current_user]: the row [load_user] finds for the session's user id. *)
Definition current_user (s : Store) (sess : session) : option User.t :=
  match sess with
  | Some i => get User.id i (users s)
  | None => None
  end.

(** [@login_required] followed by [if not current_user.is_admin]. *)
Definition as_admin (s : Store) (sess : session) (body : Store * reply)
    : Store * reply :=
  match current_user s sess with
  | None => (s, Err LoginRequired)
  | Some cu => if User.is_admin cu then body else (s, Err Unauthorized)
  end.

(* ------------------------------------------------------------------ *)
(** ** Inserts, with the constraints of the schema *)

(** A new [user] row: [username] and [email] are NOT NULL and UNIQUE. *)
Definition insert_user (s : Store) (username email : option pystr)
    (password : pystr) (is_admin : bool)
    (id_type id_number id_proof_image : option pystr) (is_verified : bool)
    : option (Store * User.t) :=
  match username, email with
  | Some un, Some em =>
      if existsb (fun u => str_eqb (User.username u) un) (users s)
         || existsb (fun u => str_eqb (User.email u) em) (users s)
      then None
      else
        let u := User.mk (next_id (map User.id (users s))) un em password
                   is_admin id_type id_number id_proof_image is_verified in
        Some (set_users s (users s ++ [u]), u)
  | _, _ => None
  end.

(** A new [vote] row: [confirmation_code] is UNIQUE. *)
Definition insert_vote (s : Store) (user_id candidate_id : nat)
    (timestamp : Z) (confirmation_code : pystr) : option (Store * Vote.t) :=
  if existsb (fun v => str_eqb (Vote.confirmation_code v) confirmation_code)
       (votes s)
  then None
  else
    let v := Vote.mk (next_id (map Vote.id (votes s))) user_id candidate_id
               timestamp confirmation_code in
    Some (set_votes s (votes s ++ [v]), v).

(** A new [candidate] row: [name] and [party] are NOT NULL. *)
Definition insert_candidate (s : Store) (name party bio image : option pystr)
    : option Store :=
  match name, party with
  | Some n, Some p =>
      Some (set_candidates s
              (candidates s ++
               [Candidate.mk (next_id (map Candidate.id (candidates s))) n p bio image]))
  | _, _ => None
  end.

(* ------------------------------------------------------------------ *)
(** ** register (lines 124-198, POST) *)

Inductive format_check := FormatOk | FormatBad | FormatRaises.

(** [if not validate(id_number)]; [pattern.match(None)] raises. *)
Definition validate_with (validate : pystr -> bool) (id_number : option pystr)
    : format_check :=
  match id_number with
  | None => FormatRaises
  | Some n => if validate n then FormatOk else FormatBad
  end.

(** The [if]/[elif] chain of lines 152-163. *)
Definition check_id_format (id_type id_number : option pystr) : format_check :=
  if opt_eqb id_type (Some (py "aadhaar")) then
    validate_with validate_aadhaar id_number
  else if opt_eqb id_type (Some (py "voter_id")) then
    validate_with validate_voter_id id_number
  else if opt_eqb id_type (Some (py "pan")) then
    validate_with validate_pan id_number
  else FormatOk.

(** [filter_by(id_type=id_type, id_number=id_number).first()] is not None. *)
Definition id_registered (s : Store) (id_type id_number : option pystr) : bool :=
  existsb (fun u => opt_eqb (User.id_type u) id_type
                    && opt_eqb (User.id_number u) id_number) (users s).

(** Lines 171-179: the proof's file name and the upload folder after it is
    saved. *)
Definition store_id_proof (s : Store) (f : RegisterForm.t)
    : option (list pystr * option pystr) :=
  match RegisterForm.id_proof f with
  | Some (_ :: _) =>
      let id_proof_filename :=
        secure_filename P
          (fmt (RegisterForm.id_type f) ++ py "_" ++
           fmt (RegisterForm.id_number f) ++ py "_" ++
           RegisterForm.uuid4 f ++ py ".jpg") in
      match save_file (py "id_proofs/") id_proof_filename (uploads s) with
      | Some fs => Some (fs, Some (py "id_proofs/" ++ id_proof_filename))
      | None => None
      end
  | _ => Some (uploads s, None)
  end.

Definition register (s : Store) (f : RegisterForm.t) : Store * reply :=
  if negb (opt_eqb (RegisterForm.password f) (RegisterForm.confirm_password f))
  then (s, Err PasswordMismatch)
  else if existsb (fun u => opt_eqb (Some (User.username u)) (RegisterForm.username f))
            (users s)
  then (s, Err UsernameTaken)
  else if existsb (fun u => opt_eqb (Some (User.email u)) (RegisterForm.email f))
            (users s)
  then (s, Err EmailTaken)
  else if ID_VERIFICATION_REQUIRED then
    match check_id_format (RegisterForm.id_type f) (RegisterForm.id_number f) with
    | FormatRaises => (s, Err ServerError)
    | FormatBad => (s, Err InvalidDocumentFormat)
    | FormatOk =>
        if id_registered s (RegisterForm.id_type f) (RegisterForm.id_number f)
        then
          match RegisterForm.id_type f with
          | Some _ => (s, Err DocumentAlreadyRegistered)
          | None => (s, Err ServerError)           (* [None.upper()] *)
          end
        else
          match store_id_proof s f with
          | None => (s, Err ServerError)
          | Some (fs, id_proof_image) =>
              let s1 := set_uploads s fs in
              match generate_password_hash P (RegisterForm.password f)
                      (RegisterForm.salt f) with
              | None => (s1, Err ServerError)
              | Some hashed_password =>
                  match insert_user s1 (RegisterForm.username f)
                          (RegisterForm.email f) hashed_password false
                          (RegisterForm.id_type f) (RegisterForm.id_number f)
                          id_proof_image false with
                  | Some (s2, new_user) => (s2, Registered new_user)
                  | None => (s1, Err ServerError)
                  end
              end
          end
    end
  else
    (* [id_proof_image] is only bound inside the branch above: line 188
       raises UnboundLocalError *)
    (s, Err ServerError).

(* ------------------------------------------------------------------ *)
(** ** login (lines 201-224, POST) *)

Definition login (s : Store) (username password : option pystr) : Store * reply :=
  match find (fun u => opt_eqb (Some (User.username u)) username) (users s) with
  | None => (s, Err InvalidCredentials)
  | Some user =>
      match check_password_hash P (User.password user) password with
      | None => (s, Err ServerError)
      | Some false => (s, Err InvalidCredentials)
      | Some true =>
          if ID_VERIFICATION_REQUIRED && negb (User.is_admin user)
             && negb (User.is_verified user)
          then (s, Err PendingVerification)
          else (s, LoggedIn user)
      end
  end.

(* ------------------------------------------------------------------ *)
(** ** vote (lines 260-286) and vote_confirmation (lines 289-304) *)

Definition vote (s : Store) (sess : session) (candidate_id : nat)
    (utcnow : Z) (uuid4 : pystr) : Store * reply :=
  match current_user s sess with
  | None => (s, Err LoginRequired)
  | Some cu =>
      if ID_VERIFICATION_REQUIRED && negb (User.is_verified cu)
      then (s, Err NotVerified)
      else if existsb (fun v => Vote.user_id v =? User.id cu) (votes s)
      then (s, Err AlreadyVoted)
      else
        match get Candidate.id candidate_id (candidates s) with
        | None => (s, Err CandidateNotFound)
        | Some candidate =>
            match insert_vote s (User.id cu) (Candidate.id candidate)
                    utcnow uuid4 with
            | Some (s', new_vote) => (s', VoteCast new_vote)
            | None => (s, Err ServerError)
            end
        end
  end.

Definition vote_confirmation (s : Store) (sess : session) (vote_id : nat)
    : Store * reply :=
  match current_user s sess with
  | None => (s, Err LoginRequired)
  | Some cu =>
      match get Vote.id vote_id (votes s) with
      | None => (s, Err NotFound)
      | Some vote =>
          if negb (Vote.user_id vote =? User.id cu)
          then (s, Err Unauthorized)
          else (s, Confirmation vote
                     (get Candidate.id (Vote.candidate_id vote) (candidates s)))
      end
  end.

(** verify_vote (lines 662-673). *)
Definition verify_vote (s : Store) (confirmation_code : pystr) : Store * reply :=
  match find (fun v => str_eqb (Vote.confirmation_code v) confirmation_code)
          (votes s) with
  | None => (s, Err NotFound)
  | Some vote =>
      (s, VoteRecord vote
            (get Candidate.id (Vote.candidate_id vote) (candidates s))
            (get User.id (Vote.user_id vote) (users s)))
  end.

(* ------------------------------------------------------------------ *)
(** ** Candidates (lines 344-437, POST) *)

Definition add_candidate (s : Store) (sess : session) (f : CandidateForm.t)
    : Store * reply :=
  as_admin s sess
    match CandidateForm.image f with
    | Some ((_ :: _) as filename) =>
        let image_filename := secure_filename P filename in
        match save_file [] image_filename (uploads s) with
        | None => (s, Err ServerError)
        | Some fs =>
            let s1 := set_uploads s fs in
            match insert_candidate s1 (CandidateForm.name f) (CandidateForm.party f)
                    (CandidateForm.bio f) (Some image_filename) with
            | Some s2 => (s2, Saved)
            | None => (s1, Err ServerError)
            end
        end
    | _ =>
        match insert_candidate s (CandidateForm.name f) (CandidateForm.party f)
                (CandidateForm.bio f) None with
        | Some s2 => (s2, Saved)
        | None => (s, Err ServerError)
        end
    end.

(** The assignments of lines 388-390 and 406, committed at line 408:
    [name] and [party] are NOT NULL. *)
Definition commit_candidate (s : Store) (candidate_id : nat)
    (f : CandidateForm.t) (image : option pystr) : Store * reply :=
  match CandidateForm.name f, CandidateForm.party f with
  | Some n, Some p =>
      (set_candidates s
         (update_row Candidate.id candidate_id
            (fun c => Candidate.mk (Candidate.id c) n p (CandidateForm.bio f) image)
            (candidates s)),
       Saved)
  | _, _ => (s, Err ServerError)
  end.

Definition edit_candidate (s : Store) (sess : session) (candidate_id : nat)
    (f : CandidateForm.t) : Store * reply :=
  as_admin s sess
    match get Candidate.id candidate_id (candidates s) with
    | None => (s, Err NotFound)
    | Some candidate =>
        match CandidateForm.image f with
        | Some ((_ :: _) as filename) =>
            let image_filename := secure_filename P filename in
            match save_file [] image_filename (uploads s) with
            | None => (s, Err ServerError)
            | Some fs =>
                let fs' :=
                  match Candidate.image candidate with
                  | Some ((_ :: _) as old) => remove_file old fs
                  | _ => fs
                  end in
                commit_candidate (set_uploads s fs') candidate_id f
                  (Some image_filename)
            end
        | _ => commit_candidate s candidate_id f (Candidate.image candidate)
        end
    end.

(** Deleting a candidate deletes the votes of its [votes] relationship
    ([cascade="all, delete-orphan"]). *)
Definition delete_candidate (s : Store) (sess : session) (candidate_id : nat)
    : Store * reply :=
  as_admin s sess
    match get Candidate.id candidate_id (candidates s) with
    | None => (s, Err NotFound)
    | Some candidate =>
        let fs :=
          match Candidate.image candidate with
          | Some ((_ :: _) as image) => remove_file image (uploads s)
          | _ => uploads s
          end in
        (mkStore (users s)
           (delete_row Candidate.id (Candidate.id candidate) (candidates s))
           (filter (fun v => negb (Vote.candidate_id v =? Candidate.id candidate))
              (votes s))
           (elections s) fs,
         Saved)
    end.

(* ------------------------------------------------------------------ *)
(** ** admin_results (lines 440-460) *)

Definition vote_count (s : Store) (candidate : Candidate.t) : nat :=
  length (filter (fun v => Vote.candidate_id v =? Candidate.id candidate) (votes s)).

(** [list.sort(key=..., reverse=True)] as the stable insertion sort by
    descending key: an entry goes before the first entry whose key is not
    larger than its own, so that entries of equal key keep their order. *)
Fixpoint insert_desc {A} (key : A -> nat) (x : A) (l : list A) : list A :=
  match l with
  | [] => [x]
  | y :: l' => if key x <? key y then y :: insert_desc key x l' else x :: l
  end.

Fixpoint sort_desc {A} (key : A -> nat) (l : list A) : list A :=
  match l with
  | [] => []
  | x :: l' => insert_desc key x (sort_desc key l')
  end.

Definition tally (s : Store) : list (Candidate.t * nat) :=
  sort_desc snd (map (fun candidate => (candidate, vote_count s candidate))
                   (candidates s)).

Definition admin_results (s : Store) (sess : session) : Store * reply :=
  as_admin s sess (s, Results (tally s) (length (votes s))).

(* ------------------------------------------------------------------ *)
(** ** Elections (lines 474-557, POST) *)

(** Lines 490-492 and 528-530: every active election is made inactive. *)
Definition deactivate_all (es : list Election.t) : list Election.t :=
  map (fun e =>
         if Election.is_active e
         then Election.mk (Election.id e) (Election.title e)
                (Election.description e) (Election.start_date e)
                (Election.end_date e) false
         else e) es.

Definition add_election (s : Store) (sess : session) (f : ElectionForm.t)
    : Store * reply :=
  as_admin s sess
    match strptime P (ElectionForm.start_date f),
          strptime P (ElectionForm.end_date f) with
    | Some start_date, Some end_date =>
        let is_active := ElectionForm.is_active f in
        let es := if is_active then deactivate_all (elections s) else elections s in
        match ElectionForm.title f with
        | Some title =>
            (set_elections s
               (es ++ [Election.mk (next_id (map Election.id es)) title
                         (ElectionForm.description f) start_date end_date is_active]),
             Saved)
        | None => (s, Err ServerError)
        end
    | _, _ => (s, Err ServerError)
    end.

Definition edit_election (s : Store) (sess : session) (election_id : nat)
    (f : ElectionForm.t) : Store * reply :=
  as_admin s sess
    match get Election.id election_id (elections s) with
    | None => (s, Err NotFound)
    | Some election =>
        match strptime P (ElectionForm.start_date f),
              strptime P (ElectionForm.end_date f) with
        | Some start_date, Some end_date =>
            let new_is_active := ElectionForm.is_active f in
            let es :=
              if new_is_active && negb (Election.is_active election)
              then deactivate_all (elections s) else elections s in
            match ElectionForm.title f with
            | Some title =>
                (set_elections s
                   (update_row Election.id election_id
                      (fun e => Election.mk (Election.id e) title
                                  (ElectionForm.description f) start_date end_date
                                  new_is_active) es),
                 Saved)
            | None => (s, Err ServerError)
            end
        | _, _ => (s, Err ServerError)
        end
    end.

Definition delete_election (s : Store) (sess : session) (election_id : nat)
    : Store * reply :=
  as_admin s sess
    match get Election.id election_id (elections s) with
    | None => (s, Err NotFound)
    | Some election =>
        (set_elections s (delete_row Election.id (Election.id election) (elections s)),
         Saved)
    end.

(* ------------------------------------------------------------------ *)
(** ** Users (lines 573-633) *)

Definition make_admin (s : Store) (sess : session) (user_id : nat) : Store * reply :=
  as_admin s sess
    match get User.id user_id (users s) with
    | None => (s, Err NotFound)
    | Some _ =>
        (set_users s
           (update_row User.id user_id
              (fun u => User.mk (User.id u) (User.username u) (User.email u)
                          (User.password u) true (User.id_type u) (User.id_number u)
                          (User.id_proof_image u) (User.is_verified u))
              (users s)),
         Saved)
    end.

Definition verify_user (s : Store) (sess : session) (user_id : nat) : Store * reply :=
  as_admin s sess
    match get User.id user_id (users s) with
    | None => (s, Err NotFound)
    | Some _ =>
        (set_users s
           (update_row User.id user_id
              (fun u => User.mk (User.id u) (User.username u) (User.email u)
                          (User.password u) (User.is_admin u) (User.id_type u)
                          (User.id_number u) (User.id_proof_image u) true)
              (users s)),
         Saved)
    end.

(** Deleting a user deletes the votes of its [votes] relationship
    ([cascade="all, delete-orphan"]). *)
Definition reject_user (s : Store) (sess : session) (user_id : nat) : Store * reply :=
  as_admin s sess
    match get User.id user_id (users s) with
    | None => (s, Err NotFound)
    | Some user =>
        let fs :=
          match User.id_proof_image user with
          | Some ((_ :: _) as image) => remove_file image (uploads s)
          | _ => uploads s
          end in
        (mkStore (delete_row User.id (User.id user) (users s))
           (candidates s)
           (filter (fun v => negb (Vote.user_id v =? User.id user)) (votes s))
           (elections s) fs,
         Saved)
    end.

(* ------------------------------------------------------------------ *)
(** ** create_tables_and_admin (lines 676-691) *)

Definition create_tables_and_admin (s : Store) (salt : pystr) : Store * reply :=
  if existsb (fun u => str_eqb (User.username u) (py "admin")) (users s)
  then (s, Saved)
  else
    match generate_password_hash P (Some (py "admin123")) salt with
    | None => (s, Err ServerError)
    | Some hashed_password =>
        match insert_user s (Some (py "admin")) (Some (py "admin@example.com"))
                hashed_password true None None None true with
        | Some (s', _) => (s', Saved)
        | None => (s, Err ServerError)
        end
    end.

(* ------------------------------------------------------------------ *)
(** ** Runs of the application *)

Inductive request :=
| Startup (salt : pystr)
| Register (f : RegisterForm.t)
| Login (username password : option pystr)
| CastVote (sess : session) (candidate_id : nat) (utcnow : Z) (uuid4 : pystr)
| VoteConfirmation (sess : session) (vote_id : nat)
| VerifyVote (confirmation_code : pystr)
| AddCandidate (sess : session) (f : CandidateForm.t)
| EditCandidate (sess : session) (candidate_id : nat) (f : CandidateForm.t)
| DeleteCandidate (sess : session) (candidate_id : nat)
| AdminResults (sess : session)
| AddElection (sess : session) (f : ElectionForm.t)
| EditElection (sess : session) (election_id : nat) (f : ElectionForm.t)
| DeleteElection (sess : session) (election_id : nat)
| MakeAdmin (sess : session) (user_id : nat)
| VerifyUser (sess : session) (user_id : nat)
| RejectUser (sess : session) (user_id : nat).

Definition handle (s : Store) (r : request) : Store * reply :=
  match r with
  | Startup salt => create_tables_and_admin s salt
  | Register f => register s f
  | Login u p => login s u p
  | CastVote sess c now code => vote s sess c now code
  | VoteConfirmation sess v => vote_confirmation s sess v
  | VerifyVote code => verify_vote s code
  | AddCandidate sess f => add_candidate s sess f
  | EditCandidate sess c f => edit_candidate s sess c f
  | DeleteCandidate sess c => delete_candidate s sess c
  | AdminResults sess => admin_results s sess
  | AddElection sess f => add_election s sess f
  | EditElection sess e f => edit_election s sess e f
  | DeleteElection sess e => delete_election s sess e
  | MakeAdmin sess u => make_admin s sess u
  | VerifyUser sess u => verify_user s sess u
  | RejectUser sess u => reject_user s sess u
  end.

(** The store after a sequence of requests. *)
Fixpoint run (rs : list request) (s : Store) : Store :=
  match rs with
  | [] => s
  | r :: rs' => run rs' (fst (handle s r))
  end.

(** The states of the store the application can be in: those a sequence of
    requests leads to from the empty database.  A request may carry any
    session; whether [login] granted it is not tracked, so these states
    include every state of a run in which sessions come from [login]. *)
Definition reachable (s : Store) : Prop :=
  exists rs, run rs empty_store = s.

End App.

(* ------------------------------------------------------------------ *)
(** ** Pages that only read the store *)

(** What a read-only route renders, with the values it passes to its
    template, or the redirect it answers with. *)
Inductive page :=
| IndexPage (candidates : list Candidate.t) (election : option Election.t)
| DashboardPage (candidates : list Candidate.t) (election : option Election.t)
    (has_voted : bool) (vote : option Vote.t)
| VerificationPendingPage
| ToAdminDashboard
| AdminDashboardPage (candidates : list Candidate.t)
    (elections : list Election.t)
    (total_voters total_votes pending_verifications : nat)
| PendingVerificationsPage (users : list User.t)
| IdProofPage (user : User.t)
| Refused (e : error).

(** [query(Election).filter_by(is_active=True).first()] (lines 119, 245). *)
Definition active_election (s : Store) : option Election.t :=
  find Election.is_active (elections s).

(** [filter_by(is_verified=False, is_admin=False)] (lines 321, 569, 658). *)
Definition pending_users (s : Store) : list User.t :=
  filter (fun u => negb (User.is_verified u) && negb (User.is_admin u)) (users s).

Section Pages.

(** [app.config["ID_VERIFICATION_REQUIRED"]]. *)
Variable ID_VERIFICATION_REQUIRED : bool.

(** index (lines 117-121). *)
Definition index (s : Store) : page :=
  IndexPage (candidates s) (active_election s).

(** dashboard (lines 234-257). *)
Definition dashboard (s : Store) (sess : session) : page :=
  match current_user s sess with
  | None => Refused LoginRequired
  | Some cu =>
      if User.is_admin cu then ToAdminDashboard
      else if ID_VERIFICATION_REQUIRED && negb (User.is_verified cu)
      then VerificationPendingPage
      else
        let user_vote :=
          find (fun v => Vote.user_id v =? User.id cu) (votes s) in
        DashboardPage (candidates s) (active_election s)
          (match user_vote with Some _ => true | None => false end)
          user_vote
  end.

(** [@login_required] followed by [if not current_user.is_admin], for a
    route that renders a page. *)
Definition page_as_admin (s : Store) (sess : session) (body : page) : page :=
  match current_user s sess with
  | None => Refused LoginRequired
  | Some cu => if User.is_admin cu then body else Refused Unauthorized
  end.

(** admin_dashboard (lines 308-330). *)
Definition admin_dashboard (s : Store) (sess : session) : page :=
  page_as_admin s sess
    (AdminDashboardPage (candidates s) (elections s)
       (length (filter (fun u => negb (User.is_admin u)) (users s)))
       (length (votes s))
       (length (pending_users s))).

(** pending_verifications (lines 651-659). *)
Definition pending_verifications (s : Store) (sess : session) : page :=
  page_as_admin s sess (PendingVerificationsPage (pending_users s)).

(** view_id_proof (lines 636-648). *)
Definition view_id_proof (s : Store) (sess : session) (user_id : nat) : page :=
  page_as_admin s sess
    match get User.id user_id (users s) with
    | None => Refused NotFound
    | Some user =>
        if truthy (User.id_proof_image user) then IdProofPage user
        else Refused NotFound
    end.

End Pages.

(** The session of a request to one of the administrator's routes that
    write the store or show the results. *)
Definition admin_route (r : request) : option session :=
  match r with
  | AddCandidate sess _ | EditCandidate sess _ _ | DeleteCandidate sess _
  | AdminResults sess
  | AddElection sess _ | EditElection sess _ _ | DeleteElection sess _
  | MakeAdmin sess _ | VerifyUser sess _ | RejectUser sess _ => Some sess
  | _ => None
  end.

(* ------------------------------------------------------------------ *)
(** ** Integrity of the store *)

(** What the schema enforces on every state of the database: primary keys
    and the UNIQUE columns. *)
Record db_constraints (s : Store) : Prop := {
  pk_user : NoDup (map User.id (users s));
  pk_candidate : NoDup (map Candidate.id (candidates s));
  pk_vote : NoDup (map Vote.id (votes s));
  pk_election : NoDup (map Election.id (elections s));
  uq_username : NoDup (map User.username (users s));
  uq_email : NoDup (map User.email (users s));
  uq_confirmation_code : NoDup (map Vote.confirmation_code (votes s))
}.

(** At most one election has [is_active] set. *)
Definition at_most_one_active (es : list Election.t) : Prop :=
  length (filter Election.is_active es) <= 1.

(** The votes an account owns. *)
Definition votes_of (s : Store) (user_id : nat) : list Vote.t :=
  filter (fun v => Vote.user_id v =? user_id) (votes s).

(** What the handlers maintain on top of the schema ([verification] is the
    value of [ID_VERIFICATION_REQUIRED]). *)
Record integrity (verification : bool) (s : Store) : Prop := {
  int_db : db_constraints s;
  int_vote_user :
    forall v, In v (votes s) -> In (Vote.user_id v) (map User.id (users s));
  int_vote_candidate :
    forall v, In v (votes s) ->
              In (Vote.candidate_id v) (map Candidate.id (candidates s));
  int_one_vote : NoDup (map Vote.user_id (votes s));
  int_voters_verified :
    verification = true ->
    forall v u, In v (votes s) -> In u (users s) ->
                User.id u = Vote.user_id v -> User.is_verified u = true;
  int_one_active : at_most_one_active (elections s);
  int_proof_image :
    forall u, In u (users s) -> User.id_proof_image u <> Some []
}.

(** The three document types of the registration form. *)
Definition listed_id_type (t : pystr) : bool :=
  str_eqb t (py "aadhaar") || str_eqb t (py "voter_id") || str_eqb t (py "pan").

(** A string made of the given blocks and nothing else: for each item
    [(k, n)], exactly [n] characters of class [k]. *)
Fixpoint has_shape (P : Platform) (items : list (char_class * nat)) (s : pystr)
    : Prop :=
  match items with
  | [] => s = []
  | (k, n) :: items' =>
      exists block rest,
        s = block ++ rest /\ length block = n /\
        Forall (fun c => in_class P k c = true) block /\
        has_shape P items' rest
  end.

(** The sum of the per-candidate counts of a tally. *)
Definition sum_counts (rows : list (Candidate.t * nat)) : nat :=
  fold_right (fun row acc => snd row + acc) 0 rows.

(* ------------------------------------------------------------------ *)
(** ** A concrete platform and concrete runs

    Used to evaluate the handlers on explicit inputs. *)

(** The part of a password hash after its salt. *)
Fixpoint after_salt (pwhash : pystr) : pystr :=
  match pwhash with
  | [] => []
  | c :: rest => if (c =? 36)%N then rest else after_salt rest
  end.

(** File names are kept as they are, a hash is the salt, a dollar sign and
    the password, and a date is the length of its text. *)
Definition demo : Platform := {|
  unicode_Nd := fun _ => false;
  secure_filename := fun name => name;
  generate_password_hash :=
    fun password salt => option_map (fun p => salt ++ py "$" ++ p) password;
  check_password_hash :=
    fun pwhash password =>
      option_map (fun p => str_eqb (after_salt pwhash) p) password;
  strptime := fun value => option_map (fun v => Z.of_nat (length v)) value
|}.

Definition form_of (username id_type id_number : string) : RegisterForm.t :=
  RegisterForm.mk (Some (py username)) (Some (py (username ++ "@example.com")))
    (Some (py "secret")) (Some (py "secret"))
    (Some (py id_type)) (Some (py id_number))
    (Some (py "scan.jpg")) (py "0000") (py "s").

Definition candidate_form (name : string) : CandidateForm.t :=
  CandidateForm.mk (Some (py name)) (Some (py "party")) None None.

Definition election_form (title : string) (active : bool) : ElectionForm.t :=
  ElectionForm.mk (Some (py title)) None (Some (py "2026-01-01T08:00"))
    (Some (py "2026-01-02T08:00")) active.

(** The seeded administrator has user id 1. *)
Definition admin_session : session := Some 1.

(** Start-up, one candidate, and the administrator's own vote. *)
Definition run_admin_voted : list request :=
  [Startup (py "s"); AddCandidate admin_session (candidate_form "A");
   CastVote admin_session 1 0%Z (py "code-1")].


(** Start-up, two candidates, two approved voters, three votes, the second
    candidate collecting two of them. *)
Definition run_poll : list request :=
  [Startup (py "s");
   AddCandidate admin_session (candidate_form "A");
   AddCandidate admin_session (candidate_form "B");
   Register (form_of "alice" "aadhaar" "123456789012");
   Register (form_of "bob" "voter_id" "ABC1234567");
   VerifyUser admin_session 2; VerifyUser admin_session 3;
   CastVote admin_session 2 0%Z (py "code-1");
   CastVote (Some 2) 1 1%Z (py "code-2");
   CastVote (Some 3) 2 2%Z (py "code-3")].

(** Start-up and one candidate. *)
Definition run_one_candidate : list request :=
  [Startup (py "s"); AddCandidate admin_session (candidate_form "A")].

(** Start-up, one candidate, and an election that is not active. *)
Definition run_no_active : list request :=
  [Startup (py "s"); AddCandidate admin_session (candidate_form "A");
   AddElection admin_session (election_form "E1" false)].

(** Start-up, an active election, then a second election added inactive. *)
Definition run_elections : list request :=
  [Startup (py "s");
   AddElection admin_session (election_form "E1" true);
   AddElection admin_session (election_form "E2" false)].

(** Candidates A, B and C holding 3, 5 and 5 votes. *)
Definition scenario_store : Store :=
  mkStore []
    [Candidate.mk 1 (py "A") (py "p") None None;
     Candidate.mk 2 (py "B") (py "q") None None;
     Candidate.mk 3 (py "C") (py "r") None None]
    (map (fun '(i, c) => Vote.mk i i c 0%Z [N.of_nat i])
       [(1, 1); (2, 2); (3, 3); (4, 2); (5, 3); (6, 1); (7, 2); (8, 3);
        (9, 2); (10, 3); (11, 1); (12, 2); (13, 3)])
    [] [].

(** An account across a request: everything but the two flags is kept, and
    a flag that is set stays set. *)
Definition same_account (u u' : User.t) : Prop :=
  User.id u' = User.id u
  /\ User.username u' = User.username u
  /\ User.email u' = User.email u
  /\ User.password u' = User.password u
  /\ User.id_type u' = User.id_type u
  /\ User.id_number u' = User.id_number u
  /\ User.id_proof_image u' = User.id_proof_image u
  /\ (User.is_admin u = true -> User.is_admin u' = true)
  /\ (User.is_verified u = true -> User.is_verified u' = true).

(** Start-up and Alice's registration, not yet approved. *)
Definition run_pending : list request :=
  [Startup (py "s"); Register (form_of "alice" "aadhaar" "123456789012")].

(** The administrator rejects the administrator's own account, Mallory
    registers with the address of the seeded administrator. *)
Definition run_admin_address_taken : list request :=
  [Startup (py "s"); RejectUser admin_session 1;
   Register
     (RegisterForm.mk (Some (py "mallory")) (Some (py "admin@example.com"))
        (Some (py "secret")) (Some (py "secret"))
        (Some (py "pan")) (Some (py "ABCDE1234F")) None (py "0000") (py "s"))].

(** Start-up alone. *)
Definition run_startup : list request := [Startup (py "s")].

(** Alice registers, is approved, votes for the only candidate and is then
    rejected: the key 2 and the vote are gone. *)
Definition run_rejected : list request :=
  [Startup (py "s"); AddCandidate admin_session (candidate_form "A");
   Register (form_of "alice" "aadhaar" "123456789012");
   VerifyUser admin_session 2;
   CastVote (Some 2) 1 0%Z (py "code-1");
   RejectUser admin_session 2].

(* ------------------------------------------------------------------ *)
(** * Properties *)

(** ** Strings *)

Lemma str_eqb_eq (a b : pystr) : str_eqb a b = true <-> a = b.
Proof.
  revert b; induction a as [|x a IH]; intros [|y b]; simpl;
    try (split; [discriminate | congruence]).
  - split; reflexivity.
  - rewrite andb_true_iff, N.eqb_eq, IH.
    split; [intros [-> ->]; reflexivity | intros H; inversion H; auto].
Qed.

Lemma str_eqb_refl (a : pystr) : str_eqb a a = true.
Proof. apply str_eqb_eq; reflexivity. Qed.

Lemma str_eqb_neq (a b : pystr) : str_eqb a b = false <-> a <> b.
Proof.
  rewrite <- str_eqb_eq. destruct (str_eqb a b); split; congruence.
Qed.

Lemma opt_eqb_eq (a b : option pystr) : opt_eqb a b = true <-> a = b.
Proof.
  destruct a, b; simpl; try (split; [discriminate | congruence]).
  - rewrite str_eqb_eq. split; congruence.
  - split; reflexivity.
Qed.

(** ** Tables *)

Lemma get_some {A} (key : A -> nat) i rows r :
  get key i rows = Some r -> In r rows /\ key r = i.
Proof.
  unfold get. intros H. apply find_some in H. destruct H as [H1 H2].
  split; [assumption | now apply Nat.eqb_eq].
Qed.

Lemma get_none {A} (key : A -> nat) i rows :
  get key i rows = None -> ~ In i (map key rows).
Proof.
  unfold get. intros H Hin. apply in_map_iff in Hin. destruct Hin as (r & Hr & Hin).
  apply (find_none _ _ H) in Hin. rewrite Hr, Nat.eqb_refl in Hin. discriminate.
Qed.

Lemma next_id_fresh (ids : list nat) : ~ In (next_id ids) ids.
Proof.
  unfold next_id. intros Hin.
  assert (Hall : Forall (fun k => k <= list_max ids) ids)
    by (apply list_max_le; lia).
  rewrite Forall_forall in Hall. apply Hall in Hin. lia.
Qed.

Lemma NoDup_map_filter {A B} (f : A -> B) (p : A -> bool) l :
  NoDup (map f l) -> NoDup (map f (filter p l)).
Proof.
  induction l as [|x l IH]; simpl; intros H; [constructor|].
  inversion H as [|? ? Hnotin Hnd]; subst.
  destruct (p x); simpl; auto.
  constructor; auto.
  intros Hin. apply Hnotin. apply in_map_iff in Hin.
  destruct Hin as (y & Hy & Hin). apply filter_In in Hin.
  apply in_map_iff. exists y. tauto.
Qed.

Lemma NoDup_map_snoc {A B} (f : A -> B) l x :
  NoDup (map f l) -> ~ In (f x) (map f l) -> NoDup (map f (l ++ [x])).
Proof.
  intros Hnd Hx. rewrite map_app. simpl.
  induction (map f l) as [|y ys IH]; simpl.
  - constructor; [intros [] | constructor].
  - inversion Hnd; subst. constructor.
    + rewrite in_app_iff. simpl in *. intuition.
    + apply IH; simpl in *; intuition.
Qed.

Lemma NoDup_map_inj {A B} (f : A -> B) l a b :
  NoDup (map f l) -> In a l -> In b l -> f a = f b -> a = b.
Proof.
  induction l as [|x l IH]; simpl; intros Hnd Ha Hb Hab; [contradiction|].
  inversion Hnd as [|? ? Hnotin Hnd']; subst.
  destruct Ha as [-> | Ha], Hb as [-> | Hb]; auto.
  - exfalso. apply Hnotin. rewrite Hab. now apply in_map.
  - exfalso. apply Hnotin. rewrite <- Hab. now apply in_map.
Qed.

Lemma map_update_row {A B} (key : A -> nat) (g : A -> B) i f rows :
  (forall r, g (f r) = g r) ->
  map g (update_row key i f rows) = map g rows.
Proof.
  intros Hg. unfold update_row. rewrite map_map. apply map_ext.
  intros r. destruct (key r =? i); auto.
Qed.

Lemma in_update_row {A} (key : A -> nat) i f rows r' :
  In r' (update_row key i f rows) ->
  exists r, In r rows /\ ((key r <> i /\ r' = r) \/ (key r = i /\ r' = f r)).
Proof.
  unfold update_row. intros H. apply in_map_iff in H.
  destruct H as (r & Hr & Hin). exists r. split; auto.
  destruct (key r =? i) eqn:E.
  - right. split; [now apply Nat.eqb_eq | auto].
  - left. split; [now apply Nat.eqb_neq | auto].
Qed.

Lemma existsb_false_notin {A B} (f : A -> B) (p : A -> bool) (x : B) l :
  (forall a, f a = x -> p a = true) ->
  existsb p l = false -> ~ In x (map f l).
Proof.
  intros Hp Hex Hin. apply in_map_iff in Hin. destruct Hin as (a & Ha & Hin).
  assert (existsb p l = true) by (apply existsb_exists; exists a; auto).
  congruence.
Qed.

(** ** The active flag of elections *)

Lemma filter_nil_iff {A} (p : A -> bool) l :
  filter p l = [] <-> forall x, In x l -> p x = false.
Proof.
  induction l as [|x l IH]; simpl.
  - split; [intros _ ? [] | reflexivity].
  - destruct (p x) eqn:E.
    + split; [discriminate | intros H; specialize (H x (or_introl eq_refl)); congruence].
    + rewrite IH. split.
      * intros H y [<- | Hy]; auto.
      * intros H y Hy; auto.
Qed.

Lemma deactivate_all_ids es :
  map Election.id (deactivate_all es) = map Election.id es.
Proof.
  unfold deactivate_all. rewrite map_map. apply map_ext.
  intros e. destruct (Election.is_active e); reflexivity.
Qed.

Lemma deactivate_all_inactive es :
  filter Election.is_active (deactivate_all es) = [].
Proof.
  apply filter_nil_iff. intros e He. unfold deactivate_all in He.
  apply in_map_iff in He. destruct He as (e0 & <- & _).
  destruct (Election.is_active e0) eqn:E; auto.
Qed.

Lemma at_most_one_active_unique es a b :
  at_most_one_active es -> In a es -> In b es ->
  Election.is_active a = true -> Election.is_active b = true -> a = b.
Proof.
  unfold at_most_one_active.
  induction es as [|x es IH]; simpl; intros Hlen Ha Hb Aa Ab; [contradiction|].
  destruct (Election.is_active x) eqn:Ex.
  - simpl in Hlen.
    assert (Hnil : filter Election.is_active es = [])
      by (destruct (filter Election.is_active es); [reflexivity | simpl in Hlen; lia]).
    rewrite filter_nil_iff in Hnil.
    destruct Ha as [-> | Ha]; [| apply Hnil in Ha; congruence].
    destruct Hb as [-> | Hb]; [reflexivity | apply Hnil in Hb; congruence].
  - destruct Ha as [-> | Ha]; [congruence|].
    destruct Hb as [-> | Hb]; [congruence|].
    now apply IH.
Qed.

Lemma update_row_others_inactive es i f :
  (forall e, In e es -> Election.id e <> i /\ Election.is_active e = false) ->
  filter Election.is_active (update_row Election.id i f es) = [].
Proof.
  intros H. apply filter_nil_iff. intros e He.
  apply in_update_row in He. destruct He as (e0 & Hin & [[_ ->] | [Hid _]]).
  - now apply H.
  - apply H in Hin. tauto.
Qed.

Lemma update_row_one_active es i f :
  NoDup (map Election.id es) ->
  (forall e, In e es -> Election.is_active e = true -> Election.id e = i) ->
  at_most_one_active (update_row Election.id i f es).
Proof.
  unfold at_most_one_active.
  induction es as [|x es IH]; simpl; intros Hnd Hact; [lia|].
  inversion Hnd as [|? ? Hnotin Hnd']; subst.
  destruct (Election.id x =? i) eqn:E.
  - apply Nat.eqb_eq in E.
    fold (update_row Election.id i f es).
    rewrite update_row_others_inactive.
    + destruct (Election.is_active (f x)); simpl; lia.
    + intros e He.
      assert (Hne : Election.id e <> i).
      { intros Heq. apply Hnotin. rewrite E, <- Heq. now apply in_map. }
      split; [assumption|].
      destruct (Election.is_active e) eqn:Ee; [|reflexivity].
      exfalso. apply Hne. apply Hact; auto.
  - assert (Ex : Election.is_active x = false).
    { destruct (Election.is_active x) eqn:Ex; [|reflexivity].
      rewrite (Hact x (or_introl eq_refl) Ex), Nat.eqb_refl in E. discriminate. }
    rewrite Ex. apply IH; auto.
Qed.

Lemma update_row_inactive_le es i f :
  (forall e, Election.is_active (f e) = false) ->
  length (filter Election.is_active (update_row Election.id i f es))
  <= length (filter Election.is_active es).
Proof.
  intros Hf. induction es as [|x es IH]; simpl; [lia|].
  fold (update_row Election.id i f es).
  destruct (Election.id x =? i).
  - rewrite Hf. destruct (Election.is_active x); simpl; lia.
  - destruct (Election.is_active x); simpl; lia.
Qed.

Lemma filter_filter_le {A} (p q : A -> bool) l :
  length (filter p (filter q l)) <= length (filter p l).
Proof.
  induction l as [|x l IH]; simpl; [lia|].
  destruct (q x), (p x) eqn:E; simpl; rewrite ?E; simpl; lia.
Qed.

(** Case analysis on the guard shared by the administrator's routes. *)
Ltac admin_guard s sess :=
  unfold as_admin;
  destruct (current_user s sess) as [?cu|] eqn:?Hcu; simpl; auto;
  destruct (User.is_admin _) eqn:?Hadm; simpl; auto.

Section Handlers.

Context (P : Platform).
Variable verification : bool.

Lemma add_election_one_active s sess f :
  at_most_one_active (elections s) ->
  at_most_one_active (elections (fst (add_election P s sess f))).
Proof.
  intros H. unfold add_election. admin_guard s sess.
  destruct (strptime P _); simpl; auto.
  destruct (strptime P _); simpl; auto.
  destruct (ElectionForm.title f); simpl; auto.
  unfold at_most_one_active in *. rewrite filter_app, length_app.
  destruct (ElectionForm.is_active f); simpl.
  - rewrite deactivate_all_inactive. simpl. lia.
  - lia.
Qed.

Lemma add_election_pk s sess f :
  NoDup (map Election.id (elections s)) ->
  NoDup (map Election.id (elections (fst (add_election P s sess f)))).
Proof.
  intros H. unfold add_election. admin_guard s sess.
  destruct (strptime P _); simpl; auto.
  destruct (strptime P _); simpl; auto.
  destruct (ElectionForm.title f); simpl; auto.
  apply NoDup_map_snoc; simpl.
  - destruct (ElectionForm.is_active f); [rewrite deactivate_all_ids|]; auto.
  - apply next_id_fresh.
Qed.

Lemma edit_election_one_active s sess i f :
  NoDup (map Election.id (elections s)) ->
  at_most_one_active (elections s) ->
  at_most_one_active (elections (fst (edit_election P s sess i f))).
Proof.
  intros Hnd H. unfold edit_election. admin_guard s sess.
  destruct (get Election.id i (elections s)) as [election|] eqn:Hget; simpl; auto.
  destruct (strptime P _); simpl; auto.
  destruct (strptime P _); simpl; auto.
  destruct (ElectionForm.title f); simpl; auto.
  apply get_some in Hget. destruct Hget as [Hin Hid].
  destruct (ElectionForm.is_active f) eqn:Enew; simpl.
  - destruct (Election.is_active election) eqn:Eold; simpl.
    + apply update_row_one_active; auto.
      intros e He Ae.
      rewrite (at_most_one_active_unique _ e election H He Hin Ae Eold). assumption.
    + apply update_row_one_active.
      * now rewrite deactivate_all_ids.
      * intros e He Ae.
        pose proof (deactivate_all_inactive (elections s)) as Hnil.
        rewrite filter_nil_iff in Hnil. apply Hnil in He. congruence.
  - unfold at_most_one_active in *.
    etransitivity; [apply update_row_inactive_le; reflexivity | assumption].
Qed.

Lemma edit_election_pk s sess i f :
  NoDup (map Election.id (elections s)) ->
  NoDup (map Election.id (elections (fst (edit_election P s sess i f)))).
Proof.
  intros H. unfold edit_election. admin_guard s sess.
  destruct (get Election.id i (elections s)); simpl; auto.
  destruct (strptime P _); simpl; auto.
  destruct (strptime P _); simpl; auto.
  destruct (ElectionForm.title f); simpl; auto.
  rewrite map_update_row by reflexivity.
  destruct (_ && _); [rewrite deactivate_all_ids|]; auto.
Qed.

Lemma delete_election_one_active s sess i :
  at_most_one_active (elections s) ->
  at_most_one_active (elections (fst (delete_election s sess i))).
Proof.
  intros H. unfold delete_election. admin_guard s sess.
  destruct (get Election.id i (elections s)); simpl; auto.
  unfold at_most_one_active, delete_row in *.
  etransitivity; [apply filter_filter_le | assumption].
Qed.

Lemma delete_election_pk s sess i :
  NoDup (map Election.id (elections s)) ->
  NoDup (map Election.id (elections (fst (delete_election s sess i)))).
Proof.
  intros H. unfold delete_election. admin_guard s sess.
  destruct (get Election.id i (elections s)); simpl; auto.
  now apply NoDup_map_filter.
Qed.

(** ** The handlers maintain the integrity of the store *)

Lemma integrity_empty : integrity verification empty_store.
Proof.
  constructor; [constructor|..]; simpl; try constructor; try contradiction.
  unfold at_most_one_active; simpl; lia.
Qed.

Lemma integrity_set_uploads s fs :
  integrity verification s -> integrity verification (set_uploads s fs).
Proof.
  intros [[p1 p2 p3 p4 u1 u2 u3] fu fc ov vv oa pi].
  constructor; [constructor|..]; simpl; auto.
Qed.

Lemma integrity_set_elections s es :
  integrity verification s ->
  NoDup (map Election.id es) -> at_most_one_active es ->
  integrity verification (set_elections s es).
Proof.
  intros [[p1 p2 p3 p4 u1 u2 u3] fu fc ov vv oa pi] Hnd Hact.
  constructor; [constructor|..]; simpl; auto.
Qed.

Lemma integrity_insert_user s un em pw adm ty num img ver s' u :
  integrity verification s -> img <> Some [] ->
  insert_user s un em pw adm ty num img ver = Some (s', u) ->
  integrity verification s'.
Proof.
  intros [[p1 p2 p3 p4 u1 u2 u3] fu fc ov vv oa pi] Himg.
  unfold insert_user. destruct un as [un|]; [|discriminate].
  destruct em as [em|]; [|discriminate].
  destruct (_ || _) eqn:E; [discriminate|].
  apply orb_false_iff in E. destruct E as [Eu Ee].
  intros H; injection H as <- <-.
  assert (Hfresh : forall v, In v (votes s) ->
            Vote.user_id v <> next_id (map User.id (users s))).
  { intros v Hv Heq. apply fu in Hv. rewrite Heq in Hv.
    now apply next_id_fresh in Hv. }
  constructor; [constructor|..]; simpl; auto.
  - apply NoDup_map_snoc; auto. apply next_id_fresh.
  - apply NoDup_map_snoc; auto. simpl.
    apply (existsb_false_notin User.username
             (fun u => str_eqb (User.username u) un)); auto.
    intros a <-. apply str_eqb_refl.
  - apply NoDup_map_snoc; auto. simpl.
    apply (existsb_false_notin User.email
             (fun u => str_eqb (User.email u) em)); auto.
    intros a <-. apply str_eqb_refl.
  - intros v Hv. rewrite map_app, in_app_iff. left. auto.
  - intros Hvf v u0 Hv Hu0 Hid. apply in_app_or in Hu0.
    destruct Hu0 as [Hu0 | [<- | []]]; [eapply vv; eauto|].
    simpl in Hid. symmetry in Hid. now apply Hfresh in Hid.
  - intros u0 Hu0. apply in_app_or in Hu0.
    destruct Hu0 as [Hu0 | [<- | []]]; auto.
Qed.

Lemma integrity_update_user s i f :
  integrity verification s ->
  (forall u, User.id (f u) = User.id u) ->
  (forall u, User.username (f u) = User.username u) ->
  (forall u, User.email (f u) = User.email u) ->
  (forall u, User.id_proof_image (f u) = User.id_proof_image u) ->
  (forall u, User.is_verified u = true -> User.is_verified (f u) = true) ->
  integrity verification (set_users s (update_row User.id i f (users s))).
Proof.
  intros [[p1 p2 p3 p4 u1 u2 u3] fu fc ov vv oa pi] Hid Hun Hem Himg Hver.
  constructor; [constructor|..]; simpl; auto;
    rewrite ?map_update_row by assumption; auto.
  - intros Hvf v u' Hv Hu' Heq. apply in_update_row in Hu'.
    destruct Hu' as (u & Hu & [[_ ->] | [_ ->]]).
    + eapply vv; eauto.
    + apply Hver. rewrite Hid in Heq. eapply vv; eauto.
  - intros u' Hu'. apply in_update_row in Hu'.
    destruct Hu' as (u & Hu & [[_ ->] | [_ ->]]); [|rewrite Himg]; auto.
Qed.

Lemma integrity_delete_user s i fs :
  integrity verification s ->
  integrity verification
    (mkStore (delete_row User.id i (users s)) (candidates s)
       (filter (fun v => negb (Vote.user_id v =? i)) (votes s))
       (elections s) fs).
Proof.
  intros [[p1 p2 p3 p4 u1 u2 u3] fu fc ov vv oa pi].
  unfold delete_row.
  constructor; [constructor|..]; simpl; auto using NoDup_map_filter.
  - intros v Hv. apply filter_In in Hv. destruct Hv as [Hv Hne].
    apply negb_true_iff, Nat.eqb_neq in Hne.
    apply fu in Hv. apply in_map_iff in Hv. destruct Hv as (u & Hu & Hin).
    apply in_map_iff. exists u. split; auto.
    apply filter_In. split; auto.
    apply negb_true_iff, Nat.eqb_neq. congruence.
  - intros v Hv. apply filter_In in Hv. now apply fc.
  - intros Hvf v u Hv Hu. apply filter_In in Hv. apply filter_In in Hu.
    apply vv; tauto.
  - intros u Hu. apply filter_In in Hu. now apply pi.
Qed.

Lemma integrity_insert_candidate s n p b img s' :
  integrity verification s ->
  insert_candidate s n p b img = Some s' ->
  integrity verification s'.
Proof.
  intros [[p1 p2 p3 p4 u1 u2 u3] fu fc ov vv oa pi].
  unfold insert_candidate. destruct n; [|discriminate].
  destruct p; [|discriminate]. intros H; injection H as <-.
  constructor; [constructor|..]; simpl; auto.
  - apply NoDup_map_snoc; auto. apply next_id_fresh.
  - intros v Hv. rewrite map_app, in_app_iff. left. auto.
Qed.

Lemma integrity_commit_candidate s i f img :
  integrity verification s ->
  integrity verification (fst (commit_candidate s i f img)).
Proof.
  intros H. unfold commit_candidate.
  destruct (CandidateForm.name f); simpl; auto.
  destruct (CandidateForm.party f); simpl; auto.
  destruct H as [[p1 p2 p3 p4 u1 u2 u3] fu fc ov vv oa pi].
  constructor; [constructor|..]; simpl; auto;
    rewrite ?map_update_row by reflexivity; auto.
Qed.

Lemma integrity_delete_candidate s i fs :
  integrity verification s ->
  integrity verification
    (mkStore (users s) (delete_row Candidate.id i (candidates s))
       (filter (fun v => negb (Vote.candidate_id v =? i)) (votes s))
       (elections s) fs).
Proof.
  intros [[p1 p2 p3 p4 u1 u2 u3] fu fc ov vv oa pi].
  unfold delete_row.
  constructor; [constructor|..]; simpl; auto using NoDup_map_filter.
  - intros v Hv. apply filter_In in Hv. now apply fu.
  - intros v Hv. apply filter_In in Hv. destruct Hv as [Hv Hne].
    apply negb_true_iff, Nat.eqb_neq in Hne.
    apply fc in Hv. apply in_map_iff in Hv. destruct Hv as (c & Hc & Hin).
    apply in_map_iff. exists c. split; auto.
    apply filter_In. split; auto.
    apply negb_true_iff, Nat.eqb_neq. congruence.
  - intros Hvf v u Hv Hu. apply filter_In in Hv. apply vv; tauto.
Qed.

Lemma integrity_insert_vote s cu c now code s' v :
  integrity verification s ->
  In cu (users s) -> In c (candidates s) ->
  verification && negb (User.is_verified cu) = false ->
  existsb (fun v => Vote.user_id v =? User.id cu) (votes s) = false ->
  insert_vote s (User.id cu) (Candidate.id c) now code = Some (s', v) ->
  integrity verification s'.
Proof.
  intros [[p1 p2 p3 p4 u1 u2 u3] fu fc ov vv oa pi] Hcu Hc Hver Hnone.
  unfold insert_vote.
  destruct (existsb (fun v => str_eqb _ _) (votes s)) eqn:Ecode; [discriminate|].
  intros H; injection H as <- <-.
  constructor; [constructor|..]; simpl; auto.
  - apply NoDup_map_snoc; auto. apply next_id_fresh.
  - apply NoDup_map_snoc; auto. simpl.
    apply (existsb_false_notin Vote.confirmation_code
             (fun v => str_eqb (Vote.confirmation_code v) code)); auto.
    intros a <-. apply str_eqb_refl.
  - intros v Hv. apply in_app_or in Hv.
    destruct Hv as [Hv | [<- | []]]; auto. simpl. now apply in_map.
  - intros v Hv. apply in_app_or in Hv.
    destruct Hv as [Hv | [<- | []]]; auto. simpl. now apply in_map.
  - apply NoDup_map_snoc; auto. simpl.
    apply (existsb_false_notin Vote.user_id
             (fun v => Vote.user_id v =? User.id cu)); auto.
    intros a <-. apply Nat.eqb_refl.
  - intros Hvf v u Hv Hu Hid. apply in_app_or in Hv.
    destruct Hv as [Hv | [<- | []]]; [eapply vv; eauto|].
    simpl in Hid.
    rewrite (NoDup_map_inj User.id (users s) u cu p1 Hu Hcu Hid).
    rewrite Hvf in Hver. simpl in Hver. now apply negb_false_iff in Hver.
Qed.

Lemma store_id_proof_image s f fs img :
  store_id_proof P s f = Some (fs, img) -> img <> Some [].
Proof.
  unfold store_id_proof.
  destruct (RegisterForm.id_proof f) as [[|c name]|].
  - intros H; injection H as <- <-. discriminate.
  - destruct (save_file _ _ _); [|discriminate].
    intros H; injection H as <- <-. discriminate.
  - intros H; injection H as <- <-. discriminate.
Qed.

Lemma register_integrity s f :
  integrity verification s ->
  integrity verification (fst (register P verification s f)).
Proof.
  intros H. unfold register.
  destruct (negb _); simpl; auto.
  destruct (existsb _ _); simpl; auto.
  destruct (existsb _ _); simpl; auto.
  match goal with
  | |- context [if verification then ?X else ?Y] =>
      assert (HX : integrity verification (fst X))
  end.
  { destruct (check_id_format _ _ _); simpl; auto.
    destruct (id_registered _ _ _); simpl.
    { destruct (RegisterForm.id_type f); simpl; auto. }
    destruct (store_id_proof P s f) as [[fs img]|] eqn:Eproof; simpl; auto.
    apply store_id_proof_image in Eproof.
    pose proof (integrity_set_uploads s fs H) as H1.
    destruct (generate_password_hash P _ _); simpl; auto.
    destruct (insert_user _ _ _ _ _ _ _ _ _) as [[s2 u]|] eqn:Eins; simpl; auto.
    eapply integrity_insert_user; eauto. }
  destruct verification; simpl; auto.
Qed.

Lemma create_tables_and_admin_integrity s salt :
  integrity verification s ->
  integrity verification (fst (create_tables_and_admin P s salt)).
Proof.
  intros H. unfold create_tables_and_admin.
  destruct (existsb _ _); [exact H|].
  destruct (generate_password_hash P _ _); [|exact H].
  destruct (insert_user _ _ _ _ _ _ _ _ _) as [[s2 u]|] eqn:Eins; [|exact H].
  simpl. eapply integrity_insert_user; eauto. discriminate.
Qed.

Lemma vote_integrity s sess c now code :
  integrity verification s ->
  integrity verification (fst (vote verification s sess c now code)).
Proof.
  intros H. unfold vote.
  destruct (current_user s sess) as [cu|] eqn:Hcu; simpl; auto.
  destruct (verification && negb (User.is_verified cu)) eqn:Ever; simpl; auto.
  destruct (existsb _ _) eqn:Enone; simpl; auto.
  destruct (get Candidate.id c (candidates s)) as [candidate|] eqn:Hc; simpl; auto.
  destruct (insert_vote _ _ _ _ _) as [[s' v]|] eqn:Eins; simpl; auto.
  destruct sess as [i|]; [|discriminate]. simpl in Hcu.
  apply get_some in Hcu. apply get_some in Hc.
  eapply integrity_insert_vote; eauto; tauto.
Qed.

Lemma add_candidate_integrity s sess f :
  integrity verification s ->
  integrity verification (fst (add_candidate P s sess f)).
Proof.
  intros H. unfold add_candidate. admin_guard s sess.
  destruct (CandidateForm.image f) as [[|ch name]|].
  - destruct (insert_candidate _ _ _ _ _) eqn:E; simpl; auto.
    eapply integrity_insert_candidate; eauto.
  - destruct (save_file _ _ _) as [fs|]; simpl; auto.
    pose proof (integrity_set_uploads s fs H) as H1.
    destruct (insert_candidate _ _ _ _ _) eqn:E; simpl; auto.
    eapply integrity_insert_candidate; eauto.
  - destruct (insert_candidate _ _ _ _ _) eqn:E; simpl; auto.
    eapply integrity_insert_candidate; eauto.
Qed.

Lemma edit_candidate_integrity s sess i f :
  integrity verification s ->
  integrity verification (fst (edit_candidate P s sess i f)).
Proof.
  intros H. unfold edit_candidate. admin_guard s sess.
  destruct (get Candidate.id i (candidates s)) as [candidate|]; simpl; auto.
  destruct (CandidateForm.image f) as [[|ch name]|];
    try (now apply integrity_commit_candidate).
  destruct (save_file _ _ _) as [fs|]; simpl; auto.
  apply integrity_commit_candidate. now apply integrity_set_uploads.
Qed.

Lemma delete_candidate_integrity s sess i :
  integrity verification s ->
  integrity verification (fst (delete_candidate s sess i)).
Proof.
  intros H. unfold delete_candidate. admin_guard s sess.
  destruct (get Candidate.id i (candidates s)) as [candidate|]; simpl; auto.
  now apply integrity_delete_candidate.
Qed.

Lemma make_admin_integrity s sess i :
  integrity verification s ->
  integrity verification (fst (make_admin s sess i)).
Proof.
  intros H. unfold make_admin. admin_guard s sess.
  destruct (get User.id i (users s)); simpl; auto.
  now apply integrity_update_user.
Qed.

Lemma verify_user_integrity s sess i :
  integrity verification s ->
  integrity verification (fst (verify_user s sess i)).
Proof.
  intros H. unfold verify_user. admin_guard s sess.
  destruct (get User.id i (users s)); simpl; auto.
  now apply integrity_update_user.
Qed.

Lemma reject_user_integrity s sess i :
  integrity verification s ->
  integrity verification (fst (reject_user s sess i)).
Proof.
  intros H. unfold reject_user. admin_guard s sess.
  destruct (get User.id i (users s)); simpl; auto.
  now apply integrity_delete_user.
Qed.

Lemma unchanged_integrity s (body : Store * reply) :
  fst body = s -> integrity verification s -> integrity verification (fst body).
Proof. intros ->. auto. Qed.

Lemma handle_integrity s r :
  integrity verification s ->
  integrity verification (fst (handle P verification s r)).
Proof.
  intros H. destruct r; simpl.
  - now apply create_tables_and_admin_integrity.
  - now apply register_integrity.
  - unfold login. destruct (find _ _); simpl; auto.
    destruct (check_password_hash P _ _) as [[|]|]; simpl; auto.
    destruct (_ && _); simpl; auto.
  - now apply vote_integrity.
  - unfold vote_confirmation.
    destruct (current_user s sess); simpl; auto.
    destruct (get Vote.id vote_id (votes s)); simpl; auto.
    destruct (negb _); simpl; auto.
  - unfold verify_vote. destruct (find _ _); simpl; auto.
  - now apply add_candidate_integrity.
  - now apply edit_candidate_integrity.
  - now apply delete_candidate_integrity.
  - unfold admin_results. admin_guard s sess.
  - pose proof H as [[p1 p2 p3 p4 u1 u2 u3] fu fc ov vv oa pi].
    pose proof (add_election_pk s sess f p4) as Hpk.
    pose proof (add_election_one_active s sess f oa) as Hact.
    revert Hpk Hact. unfold add_election. admin_guard s sess.
    destruct (strptime P _); simpl; auto.
    destruct (strptime P _); simpl; auto.
    destruct (ElectionForm.title f); simpl; auto.
    intros. now apply integrity_set_elections.
  - pose proof H as [[p1 p2 p3 p4 u1 u2 u3] fu fc ov vv oa pi].
    pose proof (edit_election_pk s sess election_id f p4) as Hpk.
    pose proof (edit_election_one_active s sess election_id f p4 oa) as Hact.
    revert Hpk Hact. unfold edit_election. admin_guard s sess.
    destruct (get Election.id election_id (elections s)); simpl; auto.
    destruct (strptime P _); simpl; auto.
    destruct (strptime P _); simpl; auto.
    destruct (ElectionForm.title f); simpl; auto.
    intros. now apply integrity_set_elections.
  - pose proof H as [[p1 p2 p3 p4 u1 u2 u3] fu fc ov vv oa pi].
    pose proof (delete_election_pk s sess election_id p4) as Hpk.
    pose proof (delete_election_one_active s sess election_id oa) as Hact.
    revert Hpk Hact. unfold delete_election. admin_guard s sess.
    destruct (get Election.id election_id (elections s)); simpl; auto.
    intros. now apply integrity_set_elections.
  - now apply make_admin_integrity.
  - now apply verify_user_integrity.
  - now apply reject_user_integrity.
Qed.

Lemma run_integrity rs s :
  integrity verification s ->
  integrity verification (run P verification rs s).
Proof.
  revert s. induction rs as [|r rs IH]; simpl; intros s H; auto.
  apply IH. now apply handle_integrity.
Qed.

(** Every state the application reaches satisfies the integrity
    constraints. *)
Lemma reachable_integrity s :
  reachable P verification s -> integrity verification s.
Proof.
  intros [rs <-]. apply run_integrity, integrity_empty.
Qed.

End Handlers.

(* ------------------------------------------------------------------ *)
(** * The voting-integrity properties *)

Lemma NoDup_map_count {A} (f : A -> nat) (k : nat) l :
  NoDup (map f l) -> length (filter (fun x => f x =? k) l) <= 1.
Proof.
  induction l as [|x l IH]; simpl; intros H; [lia|].
  inversion H as [|? ? Hnotin Hnd]; subst.
  destruct (f x =? k) eqn:E; simpl; auto.
  apply Nat.eqb_eq in E.
  assert (Hnil : filter (fun y => f y =? k) l = []).
  { apply filter_nil_iff. intros y Hy. apply Nat.eqb_neq. intros Hk.
    apply Hnotin. rewrite E, <- Hk. now apply in_map. }
  rewrite Hnil. simpl. lia.
Qed.

Section Claims.

Context (P : Platform).
Variable verification : bool.

(** ** One vote per account *)

(** C1.  In every state the application reaches, an account that already
    owns a vote and calls [vote] again is answered "You have already voted!"
    ([AlreadyVoted]) and the store is returned as it was, so no new vote is
    persisted; and every account owns at most one vote. *)
Theorem cast_vote_at_most_once s sess cu candidate_id utcnow uuid4 :
  reachable P verification s ->
  current_user s sess = Some cu ->
  votes_of s (User.id cu) <> [] ->
  vote verification s sess candidate_id utcnow uuid4 = (s, Err AlreadyVoted)
  /\ forall user_id, length (votes_of s user_id) <= 1.
Proof.
  intros Hreach Hcu Hvotes.
  apply reachable_integrity in Hreach.
  destruct Hreach as [[p1 p2 p3 p4 u1 u2 u3] fu fc ov vv oa pi].
  split; [|intros; now apply NoDup_map_count].
  destruct (votes_of s (User.id cu)) as [|v rest] eqn:Ev; [congruence|].
  assert (Hv : In v (votes_of s (User.id cu))) by (rewrite Ev; now left).
  apply filter_In in Hv. destruct Hv as [Hv Hown].
  assert (Hcu' : In cu (users s)).
  { destruct sess as [i|]; [|discriminate]. now apply get_some in Hcu. }
  unfold vote. rewrite Hcu.
  replace (verification && negb (User.is_verified cu)) with false.
  - replace (existsb _ (votes s)) with true; [reflexivity|].
    symmetry. apply existsb_exists. exists v. auto.
  - symmetry. destruct verification eqn:Evf; [|reflexivity]. simpl.
    apply negb_false_iff. apply (vv eq_refl v cu); auto.
    apply Nat.eqb_eq in Hown. auto.
Qed.

(** ** A single active election *)

(** C2.  From a store with at most one active election, adding, editing and
    deleting an election each leave at most one election active; and when an
    election is added or edited with the active box ticked, the elections
    that are active afterwards are exactly the one added or edited. *)
Theorem single_active_election_preserved s sess :
  NoDup (map Election.id (elections s)) ->
  at_most_one_active (elections s) ->
  (forall f, at_most_one_active (elections (fst (add_election P s sess f))))
  /\ (forall i f, at_most_one_active (elections (fst (edit_election P s sess i f))))
  /\ (forall i, at_most_one_active (elections (fst (delete_election s sess i))))
  /\ (forall f, ElectionForm.is_active f = true ->
        snd (add_election P s sess f) = Saved ->
        forall e, In e (elections (fst (add_election P s sess f))) ->
          (Election.is_active e = true <->
           Election.id e = next_id (map Election.id (elections s))))
  /\ (forall i f, ElectionForm.is_active f = true ->
        snd (edit_election P s sess i f) = Saved ->
        forall e, In e (elections (fst (edit_election P s sess i f))) ->
          (Election.is_active e = true <-> Election.id e = i)).
Proof.
  intros Hnd H.
  split; [intros; now apply add_election_one_active|].
  split; [intros; now apply edit_election_one_active|].
  split; [intros; now apply delete_election_one_active|].
  split.
  - intros f Hact. unfold add_election, as_admin.
    destruct (current_user s sess) as [cu|]; [|discriminate].
    destruct (User.is_admin cu); [|discriminate].
    destruct (strptime P _); [|discriminate].
    destruct (strptime P _); [|discriminate].
    destruct (ElectionForm.title f); [|discriminate].
    rewrite Hact. cbn [fst snd set_elections elections]. intros _ e He.
    rewrite deactivate_all_ids in He.
    apply in_app_or in He. destruct He as [He | [<- | []]].
    + pose proof (deactivate_all_inactive (elections s)) as Hnil.
      rewrite filter_nil_iff in Hnil. rewrite (Hnil e He).
      split; [discriminate|]. intros Hid. exfalso.
      apply (next_id_fresh (map Election.id (elections s))).
      rewrite <- Hid, <- deactivate_all_ids. now apply in_map.
    + simpl. tauto.
  - intros i f Hact. unfold edit_election, as_admin.
    destruct (current_user s sess) as [cu|]; [|discriminate].
    destruct (User.is_admin cu); [|discriminate].
    destruct (get Election.id i (elections s)) as [election|] eqn:Hget;
      [|discriminate].
    destruct (strptime P _); [|discriminate].
    destruct (strptime P _); [|discriminate].
    destruct (ElectionForm.title f); [|discriminate].
    rewrite Hact. cbn [fst snd set_elections elections andb]. intros _ e He.
    apply get_some in Hget. destruct Hget as [Hin Hid].
    apply in_update_row in He.
    destruct He as (e0 & He0 & [[Hne ->] | [Hi ->]]); [|simpl; tauto].
    split; [|congruence]. intros Ae. exfalso. apply Hne.
    destruct (Election.is_active election) eqn:Eold; simpl in He0.
    + rewrite (at_most_one_active_unique _ e0 election H He0 Hin Ae Eold).
      assumption.
    + pose proof (deactivate_all_inactive (elections s)) as Hnil.
      rewrite filter_nil_iff in Hnil. apply Hnil in He0. congruence.
Qed.

(** ** Registration and identity documents *)

Lemma existsb_none {A} (p : A -> bool) l :
  (forall x, In x l -> p x = false) -> existsb p l = false.
Proof.
  intros H. destruct (existsb p l) eqn:E; [|reflexivity].
  apply existsb_exists in E. destruct E as (x & Hx & Hp).
  rewrite (H x Hx) in Hp. discriminate.
Qed.

Lemma opt_eqb_neq (a b : option pystr) : a <> b -> opt_eqb a b = false.
Proof.
  intros H. destruct (opt_eqb a b) eqn:E; [|reflexivity].
  apply opt_eqb_eq in E. contradiction.
Qed.

(** A document type that is not on the list reaches none of the three
    validators. *)
Lemma check_id_format_unlisted t n :
  listed_id_type t = false -> check_id_format P (Some t) n = FormatOk.
Proof.
  unfold listed_id_type, check_id_format. simpl.
  intros H. apply orb_false_iff in H. destruct H as [H H3].
  apply orb_false_iff in H. destruct H as [H1 H2].
  now rewrite H1, H2, H3.
Qed.

(** Hence [register] creates the account of any applicant whose document
    type is not listed, whatever the document number, once the checks that
    do not concern the document pass. *)
Lemma register_unlisted_id_type s f t un em fs img hashed_password :
  RegisterForm.password f = RegisterForm.confirm_password f ->
  RegisterForm.username f = Some un ->
  RegisterForm.email f = Some em ->
  (forall u, In u (users s) -> User.username u <> un) ->
  (forall u, In u (users s) -> User.email u <> em) ->
  RegisterForm.id_type f = Some t ->
  listed_id_type t = false ->
  id_registered s (Some t) (RegisterForm.id_number f) = false ->
  store_id_proof P s f = Some (fs, img) ->
  generate_password_hash P (RegisterForm.password f) (RegisterForm.salt f)
  = Some hashed_password ->
  exists u,
    register P true s f
    = (set_users (set_uploads s fs) (users s ++ [u]), Registered u)
    /\ User.id_type u = Some t
    /\ User.id_number u = RegisterForm.id_number f.
Proof.
  intros Hpw Hun Hem Hfree Hfree' Ht Hlisted Hreg Hproof Hhash.
  unfold register.
  replace (opt_eqb _ (RegisterForm.confirm_password f)) with true
    by (symmetry; apply opt_eqb_eq; assumption).
  cbn [negb]. rewrite Hun, Hem.
  rewrite (existsb_none _ (users s))
    by (intros x Hx; apply opt_eqb_neq; intros H; injection H; now apply Hfree).
  rewrite (existsb_none _ (users s))
    by (intros x Hx; apply opt_eqb_neq; intros H; injection H; now apply Hfree').
  rewrite Ht, (check_id_format_unlisted _ _ Hlisted), Hreg, Hproof, Hhash.
  unfold insert_user. cbn [users set_uploads].
  rewrite (existsb_none _ (users s))
    by (intros x Hx; apply str_eqb_neq; now apply Hfree).
  rewrite (existsb_none _ (users s))
    by (intros x Hx; apply str_eqb_neq; now apply Hfree').
  cbn [orb]. eexists. split; [reflexivity|]. split; reflexivity.
Qed.

(** C3.  With identity verification enabled, registering with the document
    type "passport", which is not one of aadhaar, voter_id and pan, is not
    rejected: the account is created and carries that document type. *)
Theorem register_accepts_unlisted_id_type :
  listed_id_type (py "passport") = false
  /\ exists s' u,
       register demo true (run demo true [Startup (py "s")] empty_store)
         (form_of "alice" "passport" "not a document number")
       = (s', Registered u)
       /\ In u (users s')
       /\ User.id_type u = Some (py "passport")
       /\ User.id_number u = Some (py "not a document number").
Proof.
  split; [reflexivity|].
  eexists. eexists. split; [reflexivity|].
  split; [right; left; reflexivity|]. split; reflexivity.
Qed.



(** ** The format validators *)

Lemma app_same_length {A} (a b x y : list A) :
  length a = length b -> a ++ x = b ++ y -> a = b /\ x = y.
Proof.
  revert b. induction a as [|c a IH]; intros [|d b]; simpl;
    try discriminate; auto.
  intros Hlen H. injection H as -> H. injection Hlen as Hlen.
  destruct (IH b Hlen H) as [-> ->]. auto.
Qed.

Lemma match_repeat_spec k n s rest :
  match_repeat P k n s = Some rest <->
  exists block, s = block ++ rest /\ length block = n
                /\ Forall (fun c => in_class P k c = true) block.
Proof.
  revert s. induction n as [|n IH]; intros s; simpl.
  - split.
    + intros H; injection H as <-. exists []. repeat split. constructor.
    + intros (block & -> & Hlen & _).
      destruct block; [reflexivity | discriminate].
  - destruct s as [|c s'].
    + split; [discriminate|].
      intros (block & Hs & Hlen & _). destruct block; discriminate.
    + destruct (in_class P k c) eqn:Ec.
      * rewrite IH. split.
        -- intros (block & -> & Hlen & Hall). exists (c :: block).
           repeat split; simpl; auto.
        -- intros (block & Hs & Hlen & Hall).
           destruct block as [|c0 block]; [discriminate|].
           injection Hs as <- ->. inversion Hall; subst.
           exists block. repeat split; auto.
      * split; [discriminate|].
        intros (block & Hs & Hlen & Hall).
        destruct block as [|c0 block]; [discriminate|].
        injection Hs as <- ->. inversion Hall; subst. congruence.
Qed.

Lemma match_items_spec items s rest :
  match_items P items s = Some rest <->
  exists body, s = body ++ rest /\ has_shape P items body.
Proof.
  revert s. induction items as [|[k n] items IH]; intros s; simpl.
  - split.
    + intros H; injection H as <-. exists []. split; reflexivity.
    + intros (body & -> & ->). reflexivity.
  - destruct (match_repeat P k n s) as [r1|] eqn:E.
    + apply match_repeat_spec in E. destruct E as (block & -> & Hlen & Hall).
      rewrite IH. split.
      * intros (body & -> & Hshape). exists (block ++ body).
        split; [now rewrite app_assoc|]. exists block, body. auto.
      * intros (body & Hs & block' & rest' & -> & Hlen' & Hall' & Hshape).
        rewrite <- app_assoc in Hs.
        assert (Hb : block = block' /\ r1 = rest' ++ rest).
        { apply app_same_length; congruence. }
        exists rest'. tauto.
    + split; [discriminate|].
      intros (body & -> & block & rest' & -> & Hlen & Hall & Hshape).
      assert (Hm : match_repeat P k n ((block ++ rest') ++ rest)
                   = Some (rest' ++ rest)).
      { apply match_repeat_spec. exists block. rewrite app_assoc. auto. }
      congruence.
Qed.

(** What a validator accepts: the strings of the pattern's shape, and those
    strings followed by one newline. *)
Lemma re_match_spec items s :
  re_match P items s = true <->
  has_shape P items s \/ exists body, s = body ++ [10%N] /\ has_shape P items body.
Proof.
  unfold re_match. destruct (match_items P items s) as [rest|] eqn:E.
  - apply match_items_spec in E. destruct E as (body & -> & Hshape).
    split.
    + destruct rest as [|c [|c' rest]]; simpl; try discriminate.
      * intros _. left. now rewrite app_nil_r.
      * intros Hc. apply N.eqb_eq in Hc. subst c. right. exists body. auto.
    + assert (Hdet : forall r, match_items P items (body ++ rest) = Some r ->
                               r = rest).
      { intros r Hr.
        assert (Hm : match_items P items (body ++ rest) = Some rest)
          by (apply match_items_spec; exists body; auto).
        congruence. }
      intros [Hs | (body' & Hs & Hs')].
      * rewrite <- (Hdet []); [reflexivity|].
        apply match_items_spec. exists (body ++ rest).
        split; [now rewrite app_nil_r | assumption].
      * rewrite <- (Hdet [10%N]); [reflexivity|].
        apply match_items_spec. exists body'. auto.
  - split; [discriminate|].
    intros [Hs | (body' & Hs & Hs')].
    + assert (Hm : match_items P items s = Some []).
      { apply match_items_spec. exists s. split; [now rewrite app_nil_r | auto]. }
      congruence.
    + assert (Hm : match_items P items s = Some [10%N]).
      { apply match_items_spec. exists body'. auto. }
      congruence.
Qed.

(** The examples of the specification: twelve digits are a valid Aadhaar
    number and eleven are not; three letters and seven digits are a valid
    voter id, four letters and six digits are not. *)
Lemma validator_examples :
  validate_aadhaar P (py "123456789012") = true
  /\ validate_aadhaar P (py "12345678901") = false
  /\ validate_voter_id P (py "ABC1234567") = true
  /\ validate_voter_id P (py "ABCD123456") = false.
Proof. repeat split; reflexivity. Qed.

(** C5.  The validators are not exact: each also accepts a string of its
    format followed by a newline, which is one character longer than the
    format allows (13 characters for an Aadhaar number, 11 for a voter id
    and for a PAN). *)
Theorem validators_accept_trailing_newline :
  validate_aadhaar P (py "123456789012" ++ [10%N]) = true
  /\ length (py "123456789012" ++ [10%N]) = 13
  /\ validate_voter_id P (py "ABC1234567" ++ [10%N]) = true
  /\ validate_pan P (py "ABCDE1234F" ++ [10%N]) = true
  /\ length (py "ABCDE1234F" ++ [10%N]) = 11.
Proof. repeat split; reflexivity. Qed.

(** ** The tally *)

Lemma insert_desc_perm {A} (key : A -> nat) x l :
  Permutation (insert_desc key x l) (x :: l).
Proof.
  induction l as [|y l IH]; simpl; [reflexivity|].
  destruct (key x <? key y); [|reflexivity].
  rewrite IH. apply perm_swap.
Qed.

Lemma sort_desc_perm {A} (key : A -> nat) l :
  Permutation (sort_desc key l) l.
Proof.
  induction l as [|x l IH]; simpl; [reflexivity|].
  rewrite insert_desc_perm. now constructor.
Qed.

Lemma insert_desc_sorted {A} (key : A -> nat) x l :
  StronglySorted (fun a b => key b <= key a) l ->
  StronglySorted (fun a b => key b <= key a) (insert_desc key x l).
Proof.
  induction 1 as [|y l Hs IH Hall]; simpl.
  - constructor; constructor.
  - destruct (key x <? key y) eqn:E.
    + apply Nat.ltb_lt in E. constructor; [assumption|].
      apply (Permutation_Forall (Permutation_sym (insert_desc_perm key x l))).
      constructor; [lia | assumption].
    + apply Nat.ltb_ge in E. constructor; [now constructor|].
      constructor; [assumption|].
      apply (Forall_impl _ (P := fun b => key b <= key y)); [|assumption].
      intros b Hb. lia.
Qed.

Lemma sort_desc_sorted {A} (key : A -> nat) l :
  StronglySorted (fun a b => key b <= key a) (sort_desc key l).
Proof.
  induction l as [|x l IH]; simpl; [constructor|].
  now apply insert_desc_sorted.
Qed.

(** Insertion does not reorder entries of equal key. *)
Lemma insert_desc_stable {A} (key : A -> nat) k x l :
  filter (fun r => key r =? k) (insert_desc key x l)
  = filter (fun r => key r =? k) (x :: l).
Proof.
  induction l as [|y l IH]; [reflexivity|].
  cbn [insert_desc]. destruct (key x <? key y) eqn:E; [|reflexivity].
  apply Nat.ltb_lt in E. cbn [filter] in *. rewrite IH.
  destruct (key x =? k) eqn:Ex, (key y =? k) eqn:Ey; try reflexivity.
  apply Nat.eqb_eq in Ex, Ey. lia.
Qed.

Lemma sort_desc_stable {A} (key : A -> nat) k l :
  filter (fun r => key r =? k) (sort_desc key l)
  = filter (fun r => key r =? k) l.
Proof.
  induction l as [|x l IH]; [reflexivity|].
  cbn [sort_desc]. rewrite insert_desc_stable. cbn [filter]. now rewrite IH.
Qed.

Lemma sum_counts_perm rows rows' :
  Permutation rows rows' -> sum_counts rows = sum_counts rows'.
Proof.
  unfold sum_counts. induction 1; simpl; lia.
Qed.

Lemma sum_counts_votes cs vs :
  NoDup (map Candidate.id cs) ->
  (forall v, In v vs -> In (Vote.candidate_id v) (map Candidate.id cs)) ->
  sum_counts
    (map (fun c => (c, length (filter (fun v => Vote.candidate_id v =? Candidate.id c) vs)))
       cs)
  = length vs.
Proof.
  intros Hnd. induction vs as [|v vs IH]; intros Hfk.
  - induction cs as [|c cs IHc]; simpl; auto.
    inversion Hnd; subst. simpl in IHc. now rewrite IHc.
  - assert (Hstep : forall cs0,
      sum_counts
        (map (fun c => (c, length (filter (fun v => Vote.candidate_id v =? Candidate.id c)
                                     (v :: vs)))) cs0)
      = length (filter (fun c => Candidate.id c =? Vote.candidate_id v) cs0)
        + sum_counts
            (map (fun c => (c, length (filter (fun v => Vote.candidate_id v =? Candidate.id c)
                                         vs))) cs0)).
    { induction cs0 as [|c cs0 IHc]; [reflexivity|].
      cbn [map sum_counts fold_right snd filter] in *.
      fold sum_counts in *. unfold sum_counts in *. rewrite IHc.
      rewrite (Nat.eqb_sym (Candidate.id c)).
      destruct (Vote.candidate_id v =? Candidate.id c); simpl; lia. }
    rewrite Hstep, IH by (intros; apply Hfk; now right).
    pose proof (NoDup_map_count Candidate.id (Vote.candidate_id v) cs Hnd) as Hle.
    assert (Hin : In (Vote.candidate_id v) (map Candidate.id cs))
      by (apply Hfk; now left).
    apply in_map_iff in Hin. destruct Hin as (c & Hc & Hin).
    assert (Hf : In c (filter (fun c => Candidate.id c =? Vote.candidate_id v) cs)).
    { apply filter_In. split; [assumption | now apply Nat.eqb_eq]. }
    destruct (filter (fun c => Candidate.id c =? Vote.candidate_id v) cs);
      [contradiction|]. simpl in *. lia.
Qed.

(** The scenario of the specification: candidates A, B and C with 3, 5
    and 5 votes are listed B, C, A, and the total is 13. *)
Example tally_scenario :
  map (fun row => (Candidate.name (fst row), snd row)) (tally scenario_store)
  = [(py "B", 5); (py "C", 5); (py "A", 3)]
  /\ length (votes scenario_store) = 13.
Proof. split; reflexivity. Qed.

(** C6.  In every state the application reaches, the tally has one row per
    candidate, each with the number of that candidate's votes; the rows are
    in descending order of count, rows of equal count in the order of the
    candidates table; an administrator's results page reports this tally
    with the number of persisted votes as total; and that total is the sum
    of the counts of the rows. *)
Theorem tally_sorted_stable_total s :
  reachable P verification s ->
  Permutation (tally s)
    (map (fun candidate => (candidate, vote_count s candidate)) (candidates s))
  /\ StronglySorted (fun a b => snd b <= snd a) (tally s)
  /\ (forall k,
        filter (fun row => snd row =? k) (tally s)
        = filter (fun row => snd row =? k)
            (map (fun candidate => (candidate, vote_count s candidate))
               (candidates s)))
  /\ (forall sess cu,
        current_user s sess = Some cu -> User.is_admin cu = true ->
        admin_results s sess = (s, Results (tally s) (length (votes s))))
  /\ sum_counts (tally s) = length (votes s).
Proof.
  intros Hreach. apply reachable_integrity in Hreach.
  destruct Hreach as [[p1 p2 p3 p4 u1 u2 u3] fu fc ov vv oa pi].
  unfold tally.
  split; [apply sort_desc_perm|].
  split; [apply sort_desc_sorted|].
  split; [intros; apply sort_desc_stable|].
  split.
  - intros sess cu Hcu Hadm. unfold admin_results, as_admin.
    now rewrite Hcu, Hadm.
  - rewrite (sum_counts_perm _ _ (sort_desc_perm snd _)).
    unfold vote_count. now apply sum_counts_votes.
Qed.

(** ** Casting and looking up a vote *)

Lemma find_snoc_fresh {A} (p : A -> bool) l x :
  existsb p l = false -> p x = true -> find p (l ++ [x]) = Some x.
Proof.
  induction l as [|y l IH]; simpl; intros Hl Hx.
  - now rewrite Hx.
  - apply orb_false_iff in Hl. destruct Hl as [Hy Hl].
    rewrite Hy. auto.
Qed.

(** C7.  When [vote] succeeds, the new vote carries the caller's user id,
    the chosen candidate and the drawn confirmation code, and looking that
    code up with [verify_vote] in the resulting store returns this vote
    together with the candidate and the account of the cast. *)
Theorem verify_vote_after_cast s sess candidate_id utcnow uuid4 s' v :
  vote verification s sess candidate_id utcnow uuid4 = (s', VoteCast v) ->
  exists cu candidate,
    current_user s sess = Some cu
    /\ get Candidate.id candidate_id (candidates s) = Some candidate
    /\ Vote.user_id v = User.id cu
    /\ Vote.candidate_id v = candidate_id
    /\ Vote.confirmation_code v = uuid4
    /\ In v (votes s')
    /\ verify_vote s' uuid4 = (s', VoteRecord v (Some candidate) (Some cu)).
Proof.
  unfold vote.
  destruct (current_user s sess) as [cu|] eqn:Hcu; [|discriminate].
  destruct (verification && negb (User.is_verified cu)); [discriminate|].
  destruct (existsb _ (votes s)); [discriminate|].
  destruct (get Candidate.id candidate_id (candidates s)) as [candidate|] eqn:Hc;
    [|discriminate].
  unfold insert_vote.
  destruct (existsb _ (votes s)) eqn:Ecode; [discriminate|].
  intros H; injection H as <- <-.
  exists cu, candidate.
  destruct sess as [i|]; [|discriminate]. simpl in Hcu.
  pose proof (get_some _ _ _ _ Hcu) as [_ Hi].
  pose proof (get_some _ _ _ _ Hc) as [_ Hj].
  repeat split; auto.
  - simpl. apply in_or_app. right. now left.
  - unfold verify_vote. cbn [votes set_votes].
    rewrite (find_snoc_fresh _ (votes s)) by (auto; apply str_eqb_refl).
    cbn [Vote.candidate_id Vote.user_id candidates users set_votes].
    now rewrite Hi, Hj, Hcu, Hc.
Qed.

(** C9.  An account that is verified (when verification is required) and
    has not voted casts its vote for an existing candidate successfully
    whatever the elections table holds, in particular when no election is
    active: [vote] neither reads nor writes that table. *)
Theorem vote_needs_no_active_election s sess cu candidate_id candidate utcnow uuid4 :
  current_user s sess = Some cu ->
  (verification = true -> User.is_verified cu = true) ->
  votes_of s (User.id cu) = [] ->
  get Candidate.id candidate_id (candidates s) = Some candidate ->
  (forall v, In v (votes s) -> Vote.confirmation_code v <> uuid4) ->
  (exists v,
     vote verification s sess candidate_id utcnow uuid4
     = (set_votes s (votes s ++ [v]), VoteCast v)
     /\ Vote.user_id v = User.id cu
     /\ Vote.candidate_id v = candidate_id)
  /\ (forall es,
        exists v,
          vote verification (set_elections s es) sess candidate_id utcnow uuid4
          = (set_elections (set_votes s (votes s ++ [v])) es, VoteCast v)).
Proof.
  intros Hcu Hver Hnone Hc Hcode.
  assert (Hv : verification && negb (User.is_verified cu) = false).
  { destruct verification; [|reflexivity]. now rewrite Hver. }
  assert (Hown : existsb (fun v => Vote.user_id v =? User.id cu) (votes s) = false).
  { apply existsb_none. unfold votes_of in Hnone.
    rewrite filter_nil_iff in Hnone. exact Hnone. }
  assert (Hfresh : existsb (fun v => str_eqb (Vote.confirmation_code v) uuid4)
                     (votes s) = false).
  { apply existsb_none. intros v Hin. apply str_eqb_neq. auto. }
  split.
  - unfold vote. rewrite Hcu, Hv, Hown, Hc. unfold insert_vote. rewrite Hfresh.
    eexists. split; [reflexivity|]. split; [reflexivity|].
    simpl. now apply get_some in Hc.
  - intros es. unfold vote, current_user.
    cbn [users set_elections votes candidates].
    fold (current_user s sess). rewrite Hcu, Hv, Hown, Hc.
    unfold insert_vote. cbn [votes set_elections]. rewrite Hfresh.
    eexists. reflexivity.
Qed.

(** ** The confirmation page *)


(** ** Rejecting an account *)

Lemma find_all_false {A} (p : A -> bool) l :
  (forall x, In x l -> p x = false) -> find p l = None.
Proof.
  induction l as [|x l IH]; simpl; intros H; [reflexivity|].
  rewrite (H x (or_introl eq_refl)). auto.
Qed.

(** C8.  In every state the application reaches, an administrator's
    [reject_user] on an existing account succeeds; afterwards the account is
    gone, no vote of that account is left, the file of its identity proof is
    gone from the upload folder, and logging in with the account's username
    is answered "Please check your login details" ([InvalidCredentials])
    whatever the password. *)
Theorem reject_user_deletes_account s sess admin user_id user :
  reachable P verification s ->
  current_user s sess = Some admin ->
  User.is_admin admin = true ->
  get User.id user_id (users s) = Some user ->
  exists s',
    reject_user s sess user_id = (s', Saved)
    /\ get User.id user_id (users s') = None
    /\ ~ In user (users s')
    /\ votes_of s' user_id = []
    /\ (forall image, User.id_proof_image user = Some image ->
                      ~ In image (uploads s'))
    /\ (forall password,
          login P verification s' (Some (User.username user)) password
          = (s', Err InvalidCredentials)).
Proof.
  intros Hreach Hcu Hadm Hget. apply reachable_integrity in Hreach.
  destruct Hreach as [[p1 p2 p3 p4 u1 u2 u3] fu fc ov vv oa pi].
  unfold reject_user, as_admin. rewrite Hcu, Hadm, Hget.
  apply get_some in Hget. destruct Hget as [Hin Hid].
  eexists. split; [reflexivity|]. cbn [users votes uploads].
  unfold delete_row. rewrite Hid.
  split; [|split; [|split; [|split]]].
  - apply find_all_false. intros u Hu. apply filter_In in Hu.
    destruct Hu as [_ Hu]. now apply negb_true_iff in Hu.
  - intros Hu. apply filter_In in Hu. destruct Hu as [_ Hu].
    rewrite Hid, Nat.eqb_refl in Hu. discriminate.
  - unfold votes_of. cbn [votes]. apply filter_nil_iff. intros v Hv.
    apply filter_In in Hv. destruct Hv as [_ Hv].
    now apply negb_true_iff in Hv.
  - intros image Himg. rewrite Himg.
    destruct image as [|c image]; [now apply pi in Hin|].
    unfold remove_file. intros Hf. apply filter_In in Hf.
    destruct Hf as [_ Hf]. cbv beta in Hf.
    rewrite (str_eqb_refl (c :: image)) in Hf. discriminate.
  - intros password. unfold login. cbn [users].
    rewrite find_all_false; [reflexivity|].
    intros u Hu. apply filter_In in Hu. destruct Hu as [Hu Hne].
    apply opt_eqb_neq. intros Heq. injection Heq as Heq.
    rewrite (NoDup_map_inj User.username (users s) u user u1 Hu Hin Heq) in Hne.
    rewrite Hid, Nat.eqb_refl in Hne. discriminate.
Qed.

End Claims.

(* ------------------------------------------------------------------ *)
(** * The properties on concrete runs *)

(** After start-up, one candidate and the administrator's vote, a second
    vote of the administrator is refused. *)
Lemma cast_vote_at_most_once_witness :
  let s := run demo true run_admin_voted empty_store in
  reachable demo true s
  /\ votes_of s 1 <> []
  /\ vote true s admin_session 1 7%Z (py "code-2") = (s, Err AlreadyVoted)
  /\ forall user_id, length (votes_of s user_id) <= 1.
Proof.
  intros s.
  assert (Hr : reachable demo true s) by (exists run_admin_voted; reflexivity).
  assert (Hv : votes_of s 1 <> []) by (vm_compute; discriminate).
  destruct (current_user s admin_session) as [cu|] eqn:Hcu;
    [|vm_compute in Hcu; discriminate].
  assert (Hid : User.id cu = 1)
    by (vm_compute in Hcu; injection Hcu as <-; reflexivity).
  split; [exact Hr|]. split; [exact Hv|].
  apply (cast_vote_at_most_once demo true s admin_session cu 1 7%Z (py "code-2")
           Hr Hcu).
  rewrite Hid. exact Hv.
Defined.

(** With one active and one inactive election in the table. *)
Lemma single_active_election_preserved_witness :
  let s := run demo true run_elections empty_store in
  NoDup (map Election.id (elections s))
  /\ at_most_one_active (elections s)
  /\ (forall f,
        at_most_one_active (elections (fst (add_election demo s admin_session f))))
  /\ (forall i f,
        at_most_one_active
          (elections (fst (edit_election demo s admin_session i f)))).
Proof.
  intros s.
  assert (Hnd : NoDup (map Election.id (elections s))).
  { vm_compute. repeat constructor; simpl; intuition discriminate. }
  assert (Hact : at_most_one_active (elections s)).
  { vm_compute. lia. }
  split; [exact Hnd|]. split; [exact Hact|].
  destruct (single_active_election_preserved demo s admin_session Hnd Hact)
    as (H1 & H2 & _).
  split; assumption.
Defined.


(** The poll with one vote for A and two for B. *)
Lemma tally_sorted_stable_total_witness :
  let s := run demo true run_poll empty_store in
  reachable demo true s
  /\ map (fun row => (Candidate.name (fst row), snd row)) (tally s)
     = [(py "B", 2); (py "A", 1)]
  /\ StronglySorted (fun a b => snd b <= snd a) (tally s)
  /\ sum_counts (tally s) = length (votes s).
Proof.
  intros s.
  assert (Hr : reachable demo true s) by (exists run_poll; reflexivity).
  split; [exact Hr|]. split; [vm_compute; reflexivity|].
  destruct (tally_sorted_stable_total demo true s Hr) as (_ & Hs & _ & _ & Hsum).
  split; assumption.
Defined.

(** The administrator votes and the confirmation code is looked up. *)
Lemma verify_vote_after_cast_witness :
  let s := run demo true run_one_candidate empty_store in
  exists s' v cu candidate,
    vote true s admin_session 1 0%Z (py "code-1") = (s', VoteCast v)
    /\ current_user s admin_session = Some cu
    /\ get Candidate.id 1 (candidates s) = Some candidate
    /\ verify_vote s' (py "code-1") = (s', VoteRecord v (Some candidate) (Some cu)).
Proof.
  intros s.
  destruct (vote true s admin_session 1 0%Z (py "code-1")) as [s' r] eqn:Hvote.
  destruct r as [| |v| | | | |];
    try (exfalso; vm_compute in Hvote; discriminate).
  destruct (verify_vote_after_cast true s admin_session 1 0%Z (py "code-1")
              s' v Hvote)
    as (cu & candidate & H1 & H2 & _ & _ & _ & _ & H3).
  exists s', v, cu, candidate. repeat split; assumption.
Defined.

(** The administrator rejects Alice, who has voted; Alice's login then
    fails. *)
Lemma reject_user_deletes_account_witness :
  let s := run demo true run_poll empty_store in
  reachable demo true s
  /\ exists user s',
       get User.id 2 (users s) = Some user
       /\ reject_user s admin_session 2 = (s', Saved)
       /\ votes_of s' 2 = []
       /\ login demo true s' (Some (User.username user)) (Some (py "secret"))
          = (s', Err InvalidCredentials).
Proof.
  intros s.
  assert (Hr : reachable demo true s) by (exists run_poll; reflexivity).
  split; [exact Hr|].
  destruct (current_user s admin_session) as [admin|] eqn:Hcu;
    [|vm_compute in Hcu; discriminate].
  assert (Hadm : User.is_admin admin = true)
    by (vm_compute in Hcu; injection Hcu as <-; reflexivity).
  destruct (get User.id 2 (users s)) as [user|] eqn:Hu;
    [|vm_compute in Hu; discriminate].
  destruct (reject_user_deletes_account demo true s admin_session admin 2 user
              Hr Hcu Hadm Hu)
    as (s' & H1 & _ & _ & H2 & _ & H3).
  exists user, s'. split; [reflexivity|].
  split; [exact H1|]. split; [exact H2|]. apply H3.
Defined.

(** The only election of the table is inactive and the vote is cast. *)
Lemma vote_needs_no_active_election_witness :
  let s := run demo true run_no_active empty_store in
  length (elections s) = 1
  /\ filter Election.is_active (elections s) = []
  /\ exists v,
       vote true s admin_session 1 0%Z (py "code-1")
       = (set_votes s (votes s ++ [v]), VoteCast v).
Proof.
  intros s.
  split; [vm_compute; reflexivity|].
  split; [vm_compute; reflexivity|].
  destruct (current_user s admin_session) as [cu|] eqn:Hcu;
    [|vm_compute in Hcu; discriminate].
  assert (Hver : true = true -> User.is_verified cu = true)
    by (intros _; vm_compute in Hcu; injection Hcu as <-; reflexivity).
  assert (Hnone : votes_of s (User.id cu) = [])
    by (vm_compute in Hcu; injection Hcu as <-; vm_compute; reflexivity).
  destruct (get Candidate.id 1 (candidates s)) as [candidate|] eqn:Hc;
    [|vm_compute in Hc; discriminate].
  assert (Hcode : forall v, In v (votes s) ->
                            Vote.confirmation_code v <> py "code-1")
    by (intros v Hv; vm_compute in Hv; contradiction).
  destruct (vote_needs_no_active_election true s admin_session cu 1 candidate
              0%Z (py "code-1") Hcu Hver Hnone Hc Hcode)
    as ((v & Hv & _) & _).
  exists v. exact Hv.
Defined.


(* ------------------------------------------------------------------ *)
(** * Further properties of the handlers *)

(** ** Lookups in tables *)

Lemma get_update_row {A} (key : A -> nat) i j f rows :
  (forall r, key (f r) = key r) ->
  get key j (update_row key i f rows)
  = option_map (fun r => if key r =? i then f r else r) (get key j rows).
Proof.
  intros Hkey. unfold get, update_row.
  induction rows as [|r rows IH]; simpl; [reflexivity|].
  assert (Hk : key (if key r =? i then f r else r) = key r)
    by (destruct (key r =? i); auto).
  rewrite Hk. destruct (key r =? j); [reflexivity | exact IH].
Qed.

Lemma get_in {A} (key : A -> nat) i rows :
  In i (map key rows) -> exists r, get key i rows = Some r.
Proof.
  intros H. destruct (get key i rows) as [r|] eqn:E; [eauto|].
  now apply get_none in E.
Qed.

Lemma find_unique {A B} (f : A -> B) (eqb : B -> B -> bool) l x :
  (forall a b, eqb a b = true <-> a = b) ->
  NoDup (map f l) -> In x l ->
  find (fun y => eqb (f y) (f x)) l = Some x.
Proof.
  intros Heqb. induction l as [|y l IH]; simpl; intros Hnd Hin; [contradiction|].
  inversion Hnd as [|? ? Hnotin Hnd']; subst.
  destruct Hin as [-> | Hin].
  - replace (eqb (f x) (f x)) with true; [reflexivity|].
    symmetry. now apply Heqb.
  - destruct (eqb (f y) (f x)) eqn:E; [|auto].
    apply Heqb in E. exfalso. apply Hnotin. rewrite E. now apply in_map.
Qed.

Lemma find_by_username users u :
  NoDup (map User.username users) -> In u users ->
  find (fun x => opt_eqb (Some (User.username x)) (Some (User.username u))) users
  = Some u.
Proof.
  intros Hnd Hin.
  apply (find_unique User.username str_eqb users u str_eqb_eq Hnd Hin).
Qed.

Lemma filter_filter_comm {A} (p q : A -> bool) l :
  filter p (filter q l) = filter q (filter p l).
Proof.
  induction l as [|x l IH]; simpl; [reflexivity|].
  destruct (p x) eqn:Ep, (q x) eqn:Eq; simpl; rewrite ?Ep, ?Eq, IH; reflexivity.
Qed.

Lemma filter_filter_absorb {A} (p q : A -> bool) l :
  (forall x, p x = true -> q x = true) ->
  filter p (filter q l) = filter p l.
Proof.
  intros H. induction l as [|x l IH]; simpl; [reflexivity|].
  destruct (q x) eqn:Eq; simpl.
  - destruct (p x); now rewrite IH.
  - destruct (p x) eqn:Ep; [|exact IH].
    apply H in Ep. congruence.
Qed.

(** ** What a successful registration did *)

Lemma register_success (P : Platform) (verification : bool) s f s' u :
  register P verification s f = (s', Registered u) ->
  exists un em hashed_password fs img,
    RegisterForm.username f = Some un
    /\ RegisterForm.email f = Some em
    /\ (forall x, In x (users s) -> User.username x <> un)
    /\ (forall x, In x (users s) -> User.email x <> em)
    /\ store_id_proof P s f = Some (fs, img)
    /\ u = User.mk (next_id (map User.id (users s))) un em hashed_password
             false (RegisterForm.id_type f) (RegisterForm.id_number f) img false
    /\ s' = set_users (set_uploads s fs) (users s ++ [u]).
Proof.
  unfold register.
  destruct (negb _); [discriminate|].
  destruct (existsb (fun u => opt_eqb (Some (User.username u)) _) (users s))
    eqn:Eun; [discriminate|].
  destruct (existsb (fun u => opt_eqb (Some (User.email u)) _) (users s))
    eqn:Eem; [discriminate|].
  destruct verification; [|discriminate].
  destruct (check_id_format _ _ _); try discriminate.
  destruct (id_registered _ _ _).
  { destruct (RegisterForm.id_type f); discriminate. }
  destruct (store_id_proof P s f) as [[fs img]|]; [|discriminate].
  destruct (generate_password_hash P _ _) as [h|]; [|discriminate].
  unfold insert_user.
  destruct (RegisterForm.username f) as [un|]; [|discriminate].
  destruct (RegisterForm.email f) as [em|]; [|discriminate].
  destruct (_ || _); [discriminate|].
  intros H; injection H as <- <-.
  exists un, em, h, fs, img.
  repeat (split; [try reflexivity|]); try reflexivity.
  - intros x Hx Heq.
    assert (existsb (fun u => opt_eqb (Some (User.username u)) (Some un)) (users s)
            = true); [|congruence].
    apply existsb_exists. exists x. split; [assumption|].
    apply opt_eqb_eq. congruence.
  - intros x Hx Heq.
    assert (existsb (fun u => opt_eqb (Some (User.email u)) (Some em)) (users s)
            = true); [|congruence].
    apply existsb_exists. exists x. split; [assumption|].
    apply opt_eqb_eq. congruence.
Qed.

Lemma find_username_update_row users i f u :
  NoDup (map User.username users) -> In u users ->
  (forall x, User.username (f x) = User.username x) ->
  find (fun x => opt_eqb (Some (User.username x)) (Some (User.username u)))
    (update_row User.id i f users)
  = Some (if User.id u =? i then f u else u).
Proof.
  intros Hnd Hin Hf.
  set (g := fun r => if User.id r =? i then f r else r).
  assert (Hg : forall x, User.username (g x) = User.username x)
    by (intros x; unfold g; destruct (User.id x =? i); auto).
  change (update_row User.id i f users) with (map g users).
  change (if User.id u =? i then f u else u) with (g u).
  rewrite <- (Hg u). apply find_by_username.
  - rewrite map_map. rewrite (map_ext _ User.username Hg). assumption.
  - now apply in_map.
Qed.

(** Case analysis on every test of a handler, for goals that hold on each
    path by computation. *)
Ltac each_path :=
  repeat first
    [ reflexivity
    | exact I
    | match goal with
      | |- context [match ?x with _ => _ end] =>
          lazymatch x with
          | context [match _ with _ => _ end] => fail
          | _ => destruct x
          end
      end ].

Ltac unfold_handlers :=
  unfold create_tables_and_admin, register, login, vote, vote_confirmation,
    verify_vote, add_candidate, edit_candidate, delete_candidate,
    admin_results, add_election, edit_election, delete_election, make_admin,
    verify_user, reject_user, as_admin, commit_candidate, insert_candidate,
    insert_vote, insert_user.

Lemma handle_users_frame (P : Platform) vf s r :
  match r with
  | Startup _ | Register _ | MakeAdmin _ _ | VerifyUser _ _ | RejectUser _ _ => True
  | _ => users (fst (handle P vf s r)) = users s
  end.
Proof. destruct r; cbn [handle]; try exact I; unfold_handlers; each_path. Qed.

Lemma handle_candidates_frame (P : Platform) vf s r :
  match r with
  | AddCandidate _ _ | EditCandidate _ _ _ | DeleteCandidate _ _ => True
  | _ => candidates (fst (handle P vf s r)) = candidates s
  end.
Proof. destruct r; cbn [handle]; try exact I; unfold_handlers; each_path. Qed.

Lemma handle_votes_frame (P : Platform) vf s r :
  match r with
  | CastVote _ _ _ _ | DeleteCandidate _ _ | RejectUser _ _ => True
  | _ => votes (fst (handle P vf s r)) = votes s
  end.
Proof. destruct r; cbn [handle]; try exact I; unfold_handlers; each_path. Qed.

Lemma handle_elections_frame (P : Platform) vf s r :
  match r with
  | AddElection _ _ | EditElection _ _ _ | DeleteElection _ _ => True
  | _ => elections (fst (handle P vf s r)) = elections s
  end.
Proof. destruct r; cbn [handle]; try exact I; unfold_handlers; each_path. Qed.

Lemma same_account_refl u : same_account u u.
Proof. unfold same_account. repeat split; auto. Qed.

(** The users table after a request: every row is a row of before, up to
    its flags, or the one new row, which has the next key. *)
Lemma handle_users (P : Platform) vf s r u' :
  In u' (users (fst (handle P vf s r))) ->
  (exists u, In u (users s) /\ same_account u u')
  \/ (User.id u' = next_id (map User.id (users s))
      /\ users (fst (handle P vf s r)) = users s ++ [u']).
Proof.
  assert (Hsame : In u' (users s) ->
                  exists u, In u (users s) /\ same_account u u').
  { intros H. exists u'. split; [assumption | apply same_account_refl]. }
  pose proof (handle_users_frame P vf s r) as Hframe.
  destruct r; try (rewrite Hframe; intros H; left; now apply Hsame);
    clear Hframe; cbn [handle].
  - (* create_tables_and_admin *)
    unfold create_tables_and_admin, insert_user.
    destruct (existsb _ (users s)); [intros H; left; now apply Hsame|].
    destruct (generate_password_hash P _ _); [|intros H; left; now apply Hsame].
    destruct (_ || _); [intros H; left; now apply Hsame|].
    cbn [fst users set_users]. intros H. apply in_app_or in H.
    destruct H as [H | [<- | []]]; [left; now apply Hsame|].
    right. split; reflexivity.
  - (* register *)
    destruct (register P vf s f) as [s' rep] eqn:E. cbn [fst].
    destruct rep as [u| | | | | | |e];
      try (exfalso; revert E; unfold_handlers; each_path; discriminate).
    + destruct (register_success P vf s f s' u E)
        as (un & em & h & fs & img & _ & _ & _ & _ & _ & Hu & ->).
      cbn [users set_users]. intros H. apply in_app_or in H.
      destruct H as [H | [<- | []]]; [left; now apply Hsame|].
      right. split; [now rewrite Hu | reflexivity].
    + assert (Hus : users s' = users s).
      { revert E. unfold_handlers; each_path; intros H;
          first [discriminate | injection H as <- _; reflexivity]. }
      rewrite Hus. intros H; left; now apply Hsame.
  - (* make_admin *)
    unfold make_admin, as_admin.
    destruct (current_user s sess) as [cu|]; [|intros H; left; now apply Hsame].
    destruct (User.is_admin cu); [|intros H; left; now apply Hsame].
    destruct (get User.id user_id (users s)); [|intros H; left; now apply Hsame].
    cbn [fst users set_users]. intros H. apply in_update_row in H.
    destruct H as (u & Hu & [[_ ->] | [_ ->]]); [left; now apply Hsame|].
    left. exists u. split; [assumption|].
    unfold same_account. simpl. repeat split; auto.
  - (* verify_user *)
    unfold verify_user, as_admin.
    destruct (current_user s sess) as [cu|]; [|intros H; left; now apply Hsame].
    destruct (User.is_admin cu); [|intros H; left; now apply Hsame].
    destruct (get User.id user_id (users s)); [|intros H; left; now apply Hsame].
    cbn [fst users set_users]. intros H. apply in_update_row in H.
    destruct H as (u & Hu & [[_ ->] | [_ ->]]); [left; now apply Hsame|].
    left. exists u. split; [assumption|].
    unfold same_account. simpl. repeat split; auto.
  - (* reject_user *)
    unfold reject_user, as_admin.
    destruct (current_user s sess) as [cu|]; [|intros H; left; now apply Hsame].
    destruct (User.is_admin cu); [|intros H; left; now apply Hsame].
    destruct (get User.id user_id (users s)); [|intros H; left; now apply Hsame].
    cbn [fst users]. intros H. apply filter_In in H. left. now apply Hsame.
Qed.

Lemma insert_desc_map {A B} (g : A -> B) (keyA : A -> nat) (keyB : B -> nat) x l :
  (forall a, keyB (g a) = keyA a) ->
  map g (insert_desc keyA x l) = insert_desc keyB (g x) (map g l).
Proof.
  intros Hk. induction l as [|y l IH]; simpl; [reflexivity|].
  rewrite !Hk. destruct (keyA x <? keyA y); simpl; [now rewrite IH | reflexivity].
Qed.

Lemma sort_desc_map {A B} (g : A -> B) (keyA : A -> nat) (keyB : B -> nat) l :
  (forall a, keyB (g a) = keyA a) ->
  map g (sort_desc keyA l) = sort_desc keyB (map g l).
Proof.
  intros Hk. induction l as [|x l IH]; simpl; [reflexivity|].
  now rewrite (insert_desc_map g keyA keyB), IH.
Qed.

(** The tally, candidates named by their keys, is a function of the keys of
    the candidates table and of the votes. *)
Lemma tally_by_id s :
  map (fun row => (Candidate.id (fst row), snd row)) (tally s)
  = sort_desc snd
      (map (fun i => (i, length (filter (fun v => Vote.candidate_id v =? i) (votes s))))
         (map Candidate.id (candidates s))).
Proof.
  unfold tally.
  rewrite (sort_desc_map (fun row : Candidate.t * nat => (Candidate.id (fst row), snd row))
             snd snd) by reflexivity.
  now rewrite !map_map.
Qed.

Lemma find_app_some {A} (p : A -> bool) l l' x :
  find p l = Some x -> find p (l ++ l') = Some x.
Proof.
  induction l as [|y l IH]; simpl; [discriminate|].
  destruct (p y); auto.
Qed.

Section Extras.

Context (P : Platform).
Variable verification : bool.

(** ** Logging in *)


(** X2.  Registration grants no session: when [register] has created an
    account, [login] with its username is refused in the resulting store,
    with "pending verification" when the password is accepted. *)
Theorem registered_account_is_pending s f s' u password :
  register P true s f = (s', Registered u) ->
  login P true s' (Some (User.username u)) password
  = (s', Err match check_password_hash P (User.password u) password with
             | Some true => PendingVerification
             | Some false => InvalidCredentials
             | None => ServerError
             end).
Proof.
  intros H.
  pose proof (register_success P true s f s' u H) as Hv.
  destruct Hv as (un & em & h & fs & img & _ & _ & Hfree & _ & _ & -> & ->).
  unfold login. cbn [users set_users User.username User.password].
  rewrite find_snoc_fresh.
  - cbn [User.password User.is_admin User.is_verified andb negb].
    destruct (check_password_hash P h password) as [[|]|]; reflexivity.
  - apply existsb_none. intros x Hx. apply opt_eqb_neq.
    intros Heq. injection Heq as Heq. now apply Hfree in Hx.
  - apply opt_eqb_eq. reflexivity.
Qed.


(** X4.  With verification required, an account that an administrator
    promotes with [make_admin] before it is verified logs in all the same,
    the login check exempting administrators; its attempt to vote is still
    refused as not verified. *)
Theorem promoted_account_skips_verification s sess admin user_id user password :
  reachable P true s ->
  current_user s sess = Some admin ->
  User.is_admin admin = true ->
  get User.id user_id (users s) = Some user ->
  User.is_verified user = false ->
  check_password_hash P (User.password user) password = Some true ->
  exists s' user',
    make_admin s sess user_id = (s', Saved)
    /\ User.is_admin user' = true
    /\ User.is_verified user' = false
    /\ login P true s' (Some (User.username user)) password = (s', LoggedIn user')
    /\ forall candidate_id utcnow uuid4,
         vote true s' (Some user_id) candidate_id utcnow uuid4
         = (s', Err NotVerified).
Proof.
  intros Hreach Hcu Hadm Hget Hver Hpw. apply reachable_integrity in Hreach.
  destruct Hreach as [[p1 p2 p3 p4 u1 u2 u3] fu fc ov vv oa pi].
  unfold make_admin, as_admin. rewrite Hcu, Hadm, Hget.
  pose proof (get_some _ _ _ _ Hget) as [Hin Hid].
  eexists. eexists. split; [reflexivity|].
  split; [|split; [|split]].
  3:{ unfold login. cbn [users set_users].
      rewrite find_username_update_row by auto.
      rewrite Hid, Nat.eqb_refl. cbn [User.password User.is_admin].
      rewrite Hpw. reflexivity. }
  - reflexivity.
  - exact Hver.
  - intros c now code. unfold vote, current_user. cbn [users set_users].
    rewrite get_update_row by reflexivity. rewrite Hget. simpl.
    rewrite Hid, Nat.eqb_refl. cbn [User.is_verified]. rewrite Hver.
    reflexivity.
Qed.

(** ** What no request does *)

(** X5.  In every state the application reaches, an account that is still
    in the table after a request has kept its username, email, password
    hash, document and proof file, and a flag that was set is still set:
    no request changes credentials, or revokes an approval or
    administrator rights. *)
Theorem accounts_keep_identity_and_flags s r u u' :
  reachable P verification s ->
  In u (users s) ->
  In u' (users (fst (handle P verification s r))) ->
  User.id u' = User.id u ->
  same_account u u'.
Proof.
  intros Hreach Hu Hu' Hid. apply reachable_integrity in Hreach.
  destruct Hreach as [[p1 p2 p3 p4 u1 u2 u3] fu fc ov vv oa pi].
  apply handle_users in Hu'.
  destruct Hu' as [(u0 & Hu0 & Hsame) | [Hfresh _]].
  - assert (u0 = u); [|now subst].
    apply (NoDup_map_inj User.id (users s)); auto.
    destruct Hsame as [Hsame _]. congruence.
  - exfalso. apply (next_id_fresh (map User.id (users s))).
    rewrite <- Hfresh, Hid. now apply in_map.
Qed.

(** X6.  Every route of the administrator answers a request without a
    current user with the login redirect and a request of an account that
    is not an administrator with "Unauthorized access!", and leaves the
    store as it was. *)
Theorem admin_routes_refuse_others s r sess :
  admin_route r = Some sess ->
  (current_user s sess = None ->
   handle P verification s r = (s, Err LoginRequired))
  /\ (forall cu, current_user s sess = Some cu -> User.is_admin cu = false ->
                 handle P verification s r = (s, Err Unauthorized)).
Proof.
  intros Hr.
  destruct r; try discriminate; injection Hr as ->; cbn [handle];
    unfold add_candidate, edit_candidate, delete_candidate, admin_results,
      add_election, edit_election, delete_election, make_admin, verify_user,
      reject_user, as_admin;
    (split; [intros -> | intros cu -> ->]); reflexivity.
Qed.

(** X7.  Each table is written by its own routes only: users by start-up,
    [register], [make_admin], [verify_user] and [reject_user]; candidates by
    the three candidate routes; votes by [vote] and the two cascading
    deletions; elections by the three election routes. *)
Theorem routes_write_their_own_tables s r :
  match r with
  | Startup _ | Register _ | MakeAdmin _ _ | VerifyUser _ _ | RejectUser _ _ => True
  | _ => users (fst (handle P verification s r)) = users s
  end
  /\ match r with
     | AddCandidate _ _ | EditCandidate _ _ _ | DeleteCandidate _ _ => True
     | _ => candidates (fst (handle P verification s r)) = candidates s
     end
  /\ match r with
     | CastVote _ _ _ _ | DeleteCandidate _ _ | RejectUser _ _ => True
     | _ => votes (fst (handle P verification s r)) = votes s
     end
  /\ match r with
     | AddElection _ _ | EditElection _ _ _ | DeleteElection _ _ => True
     | _ => elections (fst (handle P verification s r)) = elections s
     end.
Proof.
  split; [apply handle_users_frame|].
  split; [apply handle_candidates_frame|].
  split; [apply handle_votes_frame | apply handle_elections_frame].
Qed.

(** X8.  Votes are never edited.  A vote in the table after a request was
    there before, unchanged, or is the vote this request cast; and a vote
    leaves the table only when its candidate is deleted or its account is
    rejected. *)
Theorem votes_only_cast_or_cascaded s r v :
  (In v (votes (fst (handle P verification s r))) ->
   In v (votes s) \/ snd (handle P verification s r) = VoteCast v)
  /\ (In v (votes s) ->
      ~ In v (votes (fst (handle P verification s r))) ->
      (exists sess, r = DeleteCandidate sess (Vote.candidate_id v))
      \/ (exists sess, r = RejectUser sess (Vote.user_id v))).
Proof.
  pose proof (handle_votes_frame P verification s r) as Hframe.
  destruct r; try (rewrite Hframe; split; [auto | contradiction]);
    clear Hframe; cbn [handle].
  - (* vote *)
    unfold vote, insert_vote.
    destruct (current_user s sess) as [cu|]; [|split; [auto | contradiction]].
    destruct (verification && negb (User.is_verified cu));
      [split; [auto | contradiction]|].
    destruct (existsb (fun v => Vote.user_id v =? User.id cu) (votes s));
      [split; [auto | contradiction]|].
    destruct (get Candidate.id candidate_id (candidates s));
      [|split; [auto | contradiction]].
    destruct (existsb _ (votes s)); [split; [auto | contradiction]|].
    cbn [fst snd votes set_votes]. split.
    + intros H. apply in_app_or in H.
      destruct H as [H | [<- | []]]; auto.
    + intros H Hn. exfalso. apply Hn. apply in_or_app. now left.
  - (* delete_candidate *)
    unfold delete_candidate, as_admin.
    destruct (current_user s sess) as [cu|]; [|split; [auto | contradiction]].
    destruct (User.is_admin cu); [|split; [auto | contradiction]].
    destruct (get Candidate.id candidate_id (candidates s)) as [c|] eqn:Hc;
      [|split; [auto | contradiction]].
    apply get_some in Hc. destruct Hc as [_ Hc].
    cbn [fst snd votes]. split.
    + intros H. apply filter_In in H. tauto.
    + intros H Hn. left. exists sess. f_equal.
      destruct (Vote.candidate_id v =? Candidate.id c) eqn:E.
      * apply Nat.eqb_eq in E. congruence.
      * exfalso. apply Hn. apply filter_In. now rewrite E.
  - (* reject_user *)
    unfold reject_user, as_admin.
    destruct (current_user s sess) as [cu|]; [|split; [auto | contradiction]].
    destruct (User.is_admin cu); [|split; [auto | contradiction]].
    destruct (get User.id user_id (users s)) as [u|] eqn:Hu;
      [|split; [auto | contradiction]].
    apply get_some in Hu. destruct Hu as [_ Hu].
    cbn [fst snd votes]. split.
    + intros H. apply filter_In in H. tauto.
    + intros H Hn. right. exists sess. f_equal.
      destruct (Vote.user_id v =? User.id u) eqn:E.
      * apply Nat.eqb_eq in E. congruence.
      * exfalso. apply Hn. apply filter_In. now rewrite E.
Qed.

(** ** Candidates and their votes *)

(** X9.  Deleting a candidate removes it and every vote cast for it, and
    nothing else: the counts of the other candidates are what they were, an
    account's votes are its former votes less those for the deleted
    candidate, and the tally has no row for it. *)
Theorem delete_candidate_cascades s sess admin candidate_id candidate :
  current_user s sess = Some admin ->
  User.is_admin admin = true ->
  get Candidate.id candidate_id (candidates s) = Some candidate ->
  exists s',
    delete_candidate s sess candidate_id = (s', Saved)
    /\ get Candidate.id candidate_id (candidates s') = None
    /\ (forall v, In v (votes s') -> Vote.candidate_id v <> candidate_id)
    /\ (forall c, Candidate.id c <> candidate_id ->
                  vote_count s' c = vote_count s c)
    /\ (forall user_id,
          votes_of s' user_id
          = filter (fun v => negb (Vote.candidate_id v =? candidate_id))
              (votes_of s user_id))
    /\ (forall row, In row (tally s') -> Candidate.id (fst row) <> candidate_id)
    /\ users s' = users s /\ elections s' = elections s.
Proof.
  intros Hcu Hadm Hget. unfold delete_candidate, as_admin.
  rewrite Hcu, Hadm, Hget. apply get_some in Hget. destruct Hget as [_ Hid].
  eexists. split; [reflexivity|]. rewrite Hid. cbn [candidates votes users elections].
  assert (Hgone : forall c,
            In c (delete_row Candidate.id candidate_id (candidates s)) ->
            Candidate.id c <> candidate_id).
  { intros c Hc. apply filter_In in Hc. destruct Hc as [_ Hc].
    now apply negb_true_iff, Nat.eqb_neq in Hc. }
  split; [|split; [|split; [|split; [|split]]]].
  - apply find_all_false. intros c Hc. apply Nat.eqb_neq. now apply Hgone.
  - intros v Hv. apply filter_In in Hv. destruct Hv as [_ Hv].
    now apply negb_true_iff, Nat.eqb_neq in Hv.
  - intros c Hc. unfold vote_count. cbn [votes]. f_equal.
    apply filter_filter_absorb. intros v Hv. apply Nat.eqb_eq in Hv.
    apply negb_true_iff, Nat.eqb_neq. congruence.
  - intros user_id. unfold votes_of. cbn [votes]. apply filter_filter_comm.
  - intros row Hrow. unfold tally in Hrow.
    apply (Permutation_in _ (sort_desc_perm snd _)) in Hrow.
    apply in_map_iff in Hrow. destruct Hrow as (c & <- & Hc).
    cbn [candidates] in Hc. simpl. now apply Hgone.
  - split; reflexivity.
Qed.

(** X10.  In every state the application reaches, a candidate that
    [add_candidate] creates gets a key no candidate has and starts with no
    votes, even when that key belonged to a candidate deleted before; the
    votes are left as they were. *)
Theorem new_candidate_has_no_votes s sess f s' :
  reachable P verification s ->
  add_candidate P s sess f = (s', Saved) ->
  exists c,
    candidates s' = candidates s ++ [c]
    /\ ~ In (Candidate.id c) (map Candidate.id (candidates s))
    /\ Some (Candidate.name c) = CandidateForm.name f
    /\ Some (Candidate.party c) = CandidateForm.party f
    /\ votes s' = votes s
    /\ vote_count s' c = 0
    /\ In (c, 0) (tally s').
Proof.
  intros Hreach Hadd. apply reachable_integrity in Hreach.
  destruct Hreach as [[p1 p2 p3 p4 u1 u2 u3] fu fc ov vv oa pi].
  assert (Hnew : exists c img fs,
            s' = set_candidates (set_uploads s fs) (candidates s ++ [c])
            /\ c = Candidate.mk (next_id (map Candidate.id (candidates s)))
                     (Candidate.name c) (Candidate.party c) (CandidateForm.bio f) img
            /\ Some (Candidate.name c) = CandidateForm.name f
            /\ Some (Candidate.party c) = CandidateForm.party f).
  { revert Hadd. unfold add_candidate, as_admin, insert_candidate.
    destruct (current_user s sess) as [cu|]; [|discriminate].
    destruct (User.is_admin cu); [|discriminate].
    destruct (CandidateForm.name f) as [n|], (CandidateForm.party f) as [p|];
      each_path; intros H; try discriminate; injection H as <-;
      eexists; eexists; eexists;
      (split; [|split; [|split]]);
      try reflexivity;
      match goal with
      | |- ?lhs = set_candidates (set_uploads s ?fs) _ =>
          unify fs (uploads lhs); destruct s; reflexivity
      end. }
  destruct Hnew as (c & img & fs & -> & Hc & Hn & Hp).
  assert (Hfresh : ~ In (Candidate.id c) (map Candidate.id (candidates s)))
    by (rewrite Hc; apply next_id_fresh).
  assert (Hzero : vote_count (set_candidates (set_uploads s fs) (candidates s ++ [c])) c = 0).
  { unfold vote_count. cbn [votes set_candidates set_uploads].
    rewrite (proj2 (filter_nil_iff _ (votes s))); [reflexivity|].
    intros v Hv. apply Nat.eqb_neq. intros Heq. apply Hfresh.
    rewrite <- Heq. now apply fc. }
  exists c. repeat (split; [assumption || reflexivity|]).
  unfold tally. apply (Permutation_in _ (Permutation_sym (sort_desc_perm snd _))).
  apply in_map_iff. exists c. split; [now rewrite Hzero|].
  cbn [candidates set_candidates]. apply in_or_app. right. now left.
Qed.

(** X11.  In every state the application reaches, the account [register]
    creates gets a key no account has, is neither an administrator nor
    verified, and owns no vote, even when that key belonged to an account
    that voted and was rejected. *)
Theorem new_account_has_no_votes s f s' u :
  reachable P verification s ->
  register P verification s f = (s', Registered u) ->
  users s' = users s ++ [u]
  /\ ~ In (User.id u) (map User.id (users s))
  /\ User.is_admin u = false
  /\ User.is_verified u = false
  /\ votes_of s' (User.id u) = [].
Proof.
  intros Hreach Hreg. apply reachable_integrity in Hreach.
  destruct Hreach as [[p1 p2 p3 p4 u1 u2 u3] fu fc ov vv oa pi].
  destruct (register_success P verification s f s' u Hreg)
    as (un & em & h & fs & img & _ & _ & _ & _ & _ & Hu & ->).
  assert (Hfresh : ~ In (User.id u) (map User.id (users s)))
    by (rewrite Hu; apply next_id_fresh).
  split; [reflexivity|]. split; [assumption|].
  split; [now rewrite Hu|]. split; [now rewrite Hu|].
  unfold votes_of. cbn [votes set_users set_uploads].
  apply filter_nil_iff. intros v Hv. apply Nat.eqb_neq. intros Heq.
  apply Hfresh. rewrite <- Heq. now apply fu.
Qed.

(** X12.  A vote that is cast adds one to the count of the chosen candidate
    and to the number of votes, and leaves every other count, the accounts
    and the candidates as they were. *)
Theorem cast_vote_counts_once s sess candidate_id utcnow uuid4 s' v :
  vote verification s sess candidate_id utcnow uuid4 = (s', VoteCast v) ->
  (forall c,
     vote_count s' c
     = vote_count s c + (if Candidate.id c =? candidate_id then 1 else 0))
  /\ length (votes s') = S (length (votes s))
  /\ users s' = users s /\ candidates s' = candidates s.
Proof.
  unfold vote.
  destruct (current_user s sess) as [cu|]; [|discriminate].
  destruct (verification && negb (User.is_verified cu)); [discriminate|].
  destruct (existsb (fun v => Vote.user_id v =? User.id cu) (votes s));
    [discriminate|].
  destruct (get Candidate.id candidate_id (candidates s)) as [candidate|] eqn:Hc;
    [|discriminate].
  apply get_some in Hc. destruct Hc as [_ Hc].
  unfold insert_vote. destruct (existsb _ (votes s)); [discriminate|].
  intros H; injection H as <- <-. cbn [votes users candidates set_votes].
  split; [|split; [|split; reflexivity]].
  - intros c. unfold vote_count. cbn [votes set_votes].
    rewrite filter_app, length_app. f_equal. cbn [filter Vote.candidate_id].
    rewrite Hc, (Nat.eqb_sym candidate_id).
    destruct (Candidate.id c =? candidate_id); reflexivity.
  - rewrite length_app. simpl. lia.
Qed.

(** X13.  Editing a candidate changes neither the votes nor the keys of the
    candidates, so the tally, candidates named by their keys, is what it
    was. *)
Theorem edit_candidate_keeps_tally s sess candidate_id f :
  votes (fst (edit_candidate P s sess candidate_id f)) = votes s
  /\ map Candidate.id (candidates (fst (edit_candidate P s sess candidate_id f)))
     = map Candidate.id (candidates s)
  /\ map (fun row => (Candidate.id (fst row), snd row))
       (tally (fst (edit_candidate P s sess candidate_id f)))
     = map (fun row => (Candidate.id (fst row), snd row)) (tally s).
Proof.
  assert (Hv : votes (fst (edit_candidate P s sess candidate_id f)) = votes s).
  { unfold_handlers; each_path. }
  assert (Hc : map Candidate.id
                 (candidates (fst (edit_candidate P s sess candidate_id f)))
               = map Candidate.id (candidates s)).
  { unfold_handlers; each_path; cbn [fst candidates set_candidates set_uploads];
      now rewrite map_update_row. }
  split; [exact Hv|]. split; [exact Hc|].
  now rewrite !tally_by_id, Hv, Hc.
Qed.

(** ** The formats of the three documents *)

Lemma digit_not_upper c :
  in_class P Digit c = true -> in_class P Upper c = false.
Proof.
  unfold in_class. intros H. apply andb_false_iff.
  destruct (N.leb_spec 65 c) as [H65|]; [|now left].
  destruct (N.leb_spec c 90) as [H90|]; [|now right].
  exfalso. apply orb_true_iff in H.
  destruct H as [H | H]; apply andb_true_iff in H; destruct H as [H1 H2].
  - apply N.leb_le in H2. lia.
  - apply N.ltb_lt in H1. lia.
Qed.

(** X14.  The three formats exclude one another: a string that one
    validator accepts is rejected by the other two, so a document number
    fits at most one of the listed document types. *)
Theorem validators_exclude_one_another (number : pystr) :
  (validate_aadhaar P number = true ->
   validate_voter_id P number = false /\ validate_pan P number = false)
  /\ (validate_voter_id P number = true ->
      validate_aadhaar P number = false /\ validate_pan P number = false)
  /\ (validate_pan P number = true ->
      validate_aadhaar P number = false /\ validate_voter_id P number = false).
Proof.
  assert (Hhead : forall c rest,
            in_class P Digit c = true ->
            validate_voter_id P (c :: rest) = false
            /\ validate_pan P (c :: rest) = false).
  { intros c rest Hc. apply digit_not_upper in Hc.
    unfold validate_voter_id, validate_pan, re_match.
    cbn [match_items match_repeat]. now rewrite Hc. }
  assert (Ha : validate_aadhaar P number = true ->
               validate_voter_id P number = false
               /\ validate_pan P number = false).
  { destruct number as [|c rest]; [discriminate|].
    destruct (in_class P Digit c) eqn:Ec; [intros _; now apply Hhead|].
    unfold validate_aadhaar, re_match. cbn [match_items match_repeat].
    rewrite Ec. discriminate. }
  assert (Hvp : validate_voter_id P number = true ->
                validate_pan P number = true -> False).
  { unfold validate_voter_id, validate_pan, re_match.
    destruct number as [|c1 [|c2 [|c3 [|c4 rest]]]];
      cbn [match_items match_repeat]; try discriminate;
      destruct (in_class P Upper c1); try discriminate;
      destruct (in_class P Upper c2); try discriminate;
      destruct (in_class P Upper c3); try discriminate.
    destruct (in_class P Digit c4) eqn:E4; [|discriminate].
    apply digit_not_upper in E4. rewrite E4. discriminate. }
  split; [exact Ha|]. split.
  - intros Hv. split.
    + destruct (validate_aadhaar P number) eqn:E; [|reflexivity].
      destruct (Ha eq_refl); congruence.
    + destruct (validate_pan P number) eqn:E; [|reflexivity].
      now destruct (Hvp Hv).
  - intros Hp. split.
    + destruct (validate_aadhaar P number) eqn:E; [|reflexivity].
      destruct (Ha eq_refl); congruence.
    + destruct (validate_voter_id P number) eqn:E; [|reflexivity].
      now destruct (Hvp eq_refl).
Qed.

(** X15.  What the validators accept, exactly: twelve digits for an Aadhaar
    number, three capitals and seven digits for a voter id, five capitals,
    four digits and a capital for a PAN, each as it is or followed by one
    newline, and nothing else. *)
Theorem validators_accept_exactly (number : pystr) :
  (validate_aadhaar P number = true <->
   exists digits,
     length digits = 12
     /\ Forall (fun c => in_class P Digit c = true) digits
     /\ (number = digits \/ number = digits ++ [10%N]))
  /\ (validate_voter_id P number = true <->
      exists letters digits,
        length letters = 3 /\ length digits = 7
        /\ Forall (fun c => in_class P Upper c = true) letters
        /\ Forall (fun c => in_class P Digit c = true) digits
        /\ (number = letters ++ digits
            \/ number = letters ++ digits ++ [10%N]))
  /\ (validate_pan P number = true <->
      exists letters digits letter,
        length letters = 5 /\ length digits = 4
        /\ Forall (fun c => in_class P Upper c = true) letters
        /\ Forall (fun c => in_class P Digit c = true) digits
        /\ in_class P Upper letter = true
        /\ (number = letters ++ digits ++ [letter]
            \/ number = letters ++ digits ++ [letter; 10%N])).
Proof.
  unfold validate_aadhaar, validate_voter_id, validate_pan.
  rewrite !re_match_spec. cbn [has_shape].
  split; [|split].
  - split.
    + intros [(b & r & -> & Hl & Hf & ->)
             | (body & -> & b & r & -> & Hl & Hf & ->)];
        exists b; rewrite ?app_nil_r; auto.
    + intros (d & Hl & Hf & [-> | ->]).
      * left. exists d, []. rewrite app_nil_r. auto.
      * right. exists d. split; [reflexivity|].
        exists d, []. rewrite app_nil_r. auto.
  - split.
    + intros [(l & r & -> & Hl & Hf & d & r' & -> & Hd & Hfd & ->)
             | (body & -> & l & r & -> & Hl & Hf & d & r' & -> & Hd & Hfd & ->)];
        exists l, d; rewrite ?app_nil_r, <- ?app_assoc; auto 10.
    + intros (l & d & Hl & Hd & Hf & Hfd & [-> | ->]).
      * left. exists l, d. repeat split; auto.
        exists d, []. rewrite app_nil_r. auto.
      * right. exists (l ++ d). split; [now rewrite app_assoc|].
        exists l, d. repeat split; auto.
        exists d, []. rewrite app_nil_r. auto.
  - split.
    + intros [(l & r & -> & Hl & Hf & d & r' & -> & Hd & Hfd
                 & x & r'' & -> & Hx & Hfx & ->)
             | (body & -> & l & r & -> & Hl & Hf & d & r' & -> & Hd & Hfd
                 & x & r'' & -> & Hx & Hfx & ->)];
        (destruct x as [|c [|? ?]]; try discriminate);
        inversion Hfx; subst;
        exists l, d, c; rewrite ?app_nil_r, <- ?app_assoc; auto 10.
    + intros (l & d & c & Hl & Hd & Hf & Hfd & Hc & [-> | ->]).
      * left. exists l, (d ++ [c]). repeat split; auto.
        exists d, [c]. repeat split; auto.
        exists [c], []. repeat split; auto.
      * right. exists (l ++ d ++ [c]).
        split; [now rewrite <- !app_assoc|].
        exists l, (d ++ [c]). repeat split; auto.
        exists d, [c]. repeat split; auto.
        exists [c], []. repeat split; auto.
Qed.

(** ** Registration *)

(** X16.  [register] answers with an error or with the new account.  On an
    error the users table is what it was, and unless the request crashed
    the whole store is; the new account carries the username, email and
    document of the form and the hash generated from the submitted
    password, which equals its confirmation. *)
Theorem register_outcome s f :
  (forall e, snd (register P verification s f) = Err e ->
     users (fst (register P verification s f)) = users s
     /\ (e <> ServerError -> fst (register P verification s f) = s))
  /\ (forall u, snd (register P verification s f) = Registered u ->
        Some (User.username u) = RegisterForm.username f
        /\ Some (User.email u) = RegisterForm.email f
        /\ User.id_type u = RegisterForm.id_type f
        /\ User.id_number u = RegisterForm.id_number f
        /\ RegisterForm.password f = RegisterForm.confirm_password f
        /\ generate_password_hash P (RegisterForm.password f) (RegisterForm.salt f)
           = Some (User.password u))
  /\ ((exists e, snd (register P verification s f) = Err e)
      \/ (exists u, snd (register P verification s f) = Registered u)).
Proof.
  split; [|split].
  - destruct (register P verification s f) as [s' r] eqn:E. cbn [fst snd].
    revert E. unfold register, insert_user. each_path;
      intros H; injection H as <- <-; intros e He; try discriminate;
      injection He as <-;
      (split; [reflexivity | intros Hne; try reflexivity; now contradiction Hne]).
  - unfold register.
    destruct (opt_eqb (RegisterForm.password f) (RegisterForm.confirm_password f))
      eqn:Epw; cbn [negb snd]; [|discriminate].
    apply opt_eqb_eq in Epw.
    destruct (existsb (fun u => opt_eqb (Some (User.username u)) _) (users s));
      [discriminate|].
    destruct (existsb (fun u => opt_eqb (Some (User.email u)) _) (users s));
      [discriminate|].
    generalize verification. intros [|]; [|discriminate].
    destruct (check_id_format _ _ _); try discriminate.
    destruct (id_registered _ _ _).
    { destruct (RegisterForm.id_type f); discriminate. }
    destruct (store_id_proof P s f) as [[fs img]|]; [|discriminate].
    destruct (generate_password_hash P _ _) as [h|]; [|discriminate].
    unfold insert_user.
    destruct (RegisterForm.username f) as [un|]; [|discriminate].
    destruct (RegisterForm.email f) as [em|]; [|discriminate].
    destruct (_ || _); [discriminate|].
    intros u H; injection H as <-. cbn. repeat split; auto.
  - destruct (register P verification s f) as [s' r] eqn:E. cbn [snd].
    revert E. unfold register, insert_user. each_path;
      intros H; injection H as _ <-; eauto.
Qed.

(** X17.  In every state the application reaches no two accounts share a
    key, a username or an email address; [register] answers a username
    that is taken with "Username already exists!" and, the username being
    free, an email that is taken with "Email already registered!". *)
Theorem accounts_are_unique s :
  reachable P verification s ->
  (forall u1 u2, In u1 (users s) -> In u2 (users s) ->
     User.id u1 = User.id u2 \/ User.username u1 = User.username u2
     \/ User.email u1 = User.email u2 ->
     u1 = u2)
  /\ (forall f u, In u (users s) ->
        RegisterForm.password f = RegisterForm.confirm_password f ->
        RegisterForm.username f = Some (User.username u) ->
        register P verification s f = (s, Err UsernameTaken))
  /\ (forall f u, In u (users s) ->
        RegisterForm.password f = RegisterForm.confirm_password f ->
        (forall x, In x (users s) ->
                   Some (User.username x) <> RegisterForm.username f) ->
        RegisterForm.email f = Some (User.email u) ->
        register P verification s f = (s, Err EmailTaken)).
Proof.
  intros Hreach. apply reachable_integrity in Hreach.
  destruct Hreach as [[p1 p2 p3 p4 u1 u2 u3] fu fc ov vv oa pi].
  split; [|split].
  - intros a b Ha Hb [H | [H | H]].
    + now apply (NoDup_map_inj User.id (users s)).
    + now apply (NoDup_map_inj User.username (users s)).
    + now apply (NoDup_map_inj User.email (users s)).
  - intros f u Hu Hpw Hun. unfold register.
    replace (opt_eqb _ (RegisterForm.confirm_password f)) with true
      by (symmetry; apply opt_eqb_eq; assumption).
    cbn [negb].
    replace (existsb _ (users s)) with true; [reflexivity|].
    symmetry. apply existsb_exists. exists u. split; [assumption|].
    apply opt_eqb_eq. now rewrite Hun.
  - intros f u Hu Hpw Hfree Hem. unfold register.
    replace (opt_eqb _ (RegisterForm.confirm_password f)) with true
      by (symmetry; apply opt_eqb_eq; assumption).
    cbn [negb].
    rewrite (existsb_none _ (users s))
      by (intros x Hx; apply opt_eqb_neq; auto).
    replace (existsb _ (users s)) with true; [reflexivity|].
    symmetry. apply existsb_exists. exists u. split; [assumption|].
    apply opt_eqb_eq. now rewrite Hem.
Qed.

(** ** Start-up *)

Lemma existsb_snoc {A} (p : A -> bool) l x :
  existsb p (l ++ [x]) = existsb p l || p x.
Proof. rewrite existsb_app. simpl. now rewrite orb_false_r. Qed.

(** X18.  Start-up is idempotent: once [create_tables_and_admin] has
    succeeded, running it again, with whatever salt, changes nothing. *)
Theorem startup_is_idempotent s salt salt' :
  snd (create_tables_and_admin P s salt) = Saved ->
  create_tables_and_admin P (fst (create_tables_and_admin P s salt)) salt'
  = (fst (create_tables_and_admin P s salt), Saved).
Proof.
  unfold create_tables_and_admin at 1 3 4.
  destruct (existsb _ (users s)) eqn:E.
  - intros _. cbn [fst]. unfold create_tables_and_admin. now rewrite E.
  - destruct (generate_password_hash P _ salt) as [h|]; [|discriminate].
    unfold insert_user.
    destruct (_ || _); [discriminate|]. intros _. cbn [fst].
    unfold create_tables_and_admin. cbn [users set_users].
    rewrite existsb_snoc. cbn [User.username].
    rewrite str_eqb_refl, orb_true_r. reflexivity.
Qed.

(** X19.  When no account is named admin but some account holds the
    address admin@example.com, start-up fails on the UNIQUE constraint of
    the email column: the application does not start and no administrator
    is created. *)
Theorem startup_fails_when_address_taken s salt u :
  (forall x, In x (users s) -> User.username x <> py "admin") ->
  In u (users s) ->
  User.email u = py "admin@example.com" ->
  create_tables_and_admin P s salt = (s, Err ServerError).
Proof.
  intros Hfree Hu Hem. unfold create_tables_and_admin.
  rewrite (existsb_none _ (users s))
    by (intros x Hx; apply str_eqb_neq; auto).
  destruct (generate_password_hash P _ salt); [|reflexivity].
  unfold insert_user.
  rewrite (existsb_none _ (users s))
    by (intros x Hx; apply str_eqb_neq; auto).
  replace (existsb _ (users s)) with true; [reflexivity|].
  symmetry. apply existsb_exists. exists u. split; [assumption|].
  apply str_eqb_eq. assumption.
Qed.

(** ** Pages and lookups *)

(** X20.  The redirect after a vote succeeds: the confirmation page of the
    new vote's id shows that vote and the chosen candidate to the voter,
    and is refused to any other account. *)
Theorem vote_then_confirmation s sess candidate_id utcnow uuid4 s' v :
  vote verification s sess candidate_id utcnow uuid4 = (s', VoteCast v) ->
  (exists candidate,
     get Candidate.id candidate_id (candidates s) = Some candidate
     /\ vote_confirmation s' sess (Vote.id v)
        = (s', Confirmation v (Some candidate)))
  /\ (forall sess' cu',
        current_user s' sess' = Some cu' ->
        User.id cu' <> Vote.user_id v ->
        vote_confirmation s' sess' (Vote.id v) = (s', Err Unauthorized)).
Proof.
  unfold vote.
  destruct (current_user s sess) as [cu|] eqn:Hcu; [|discriminate].
  destruct (verification && negb (User.is_verified cu)); [discriminate|].
  destruct (existsb (fun v => Vote.user_id v =? User.id cu) (votes s));
    [discriminate|].
  destruct (get Candidate.id candidate_id (candidates s)) as [candidate|] eqn:Hc;
    [|discriminate].
  unfold insert_vote. destruct (existsb _ (votes s)); [discriminate|].
  intros H; injection H as <- <-.
  assert (Hget : get Vote.id (next_id (map Vote.id (votes s)))
                   (votes s ++ [Vote.mk (next_id (map Vote.id (votes s)))
                                  (User.id cu) (Candidate.id candidate)
                                  utcnow uuid4])
                 = Some (Vote.mk (next_id (map Vote.id (votes s)))
                           (User.id cu) (Candidate.id candidate) utcnow uuid4)).
  { unfold get. apply find_snoc_fresh; [|apply Nat.eqb_refl].
    apply existsb_none. intros x Hx. apply Nat.eqb_neq. intros Heq.
    apply (next_id_fresh (map Vote.id (votes s))). rewrite <- Heq.
    now apply in_map. }
  pose proof (get_some _ _ _ _ Hc) as [_ Hcid].
  split.
  - exists candidate. split; [reflexivity|].
    unfold vote_confirmation, current_user. cbn [users set_votes votes candidates Vote.id].
    fold (current_user s sess). rewrite Hcu, Hget.
    cbn [Vote.user_id Vote.candidate_id]. rewrite Nat.eqb_refl. cbn [negb].
    now rewrite Hcid, Hc.
  - intros sess' cu' Hcu' Hne. unfold vote_confirmation.
    rewrite Hcu'. cbn [votes set_votes Vote.id]. rewrite Hget.
    cbn [Vote.user_id]. cbn [Vote.user_id] in Hne.
    replace (User.id cu =? User.id cu') with false; [reflexivity|].
    symmetry. apply Nat.eqb_neq. congruence.
Qed.

(** X21.  In every state the application reaches, each vote of the table is
    found by its confirmation code, together with its candidate and its
    account, both of which exist; a code no vote carries is answered
    "Invalid confirmation code!". *)
Theorem verify_vote_finds_every_vote s :
  reachable P verification s ->
  (forall v, In v (votes s) ->
     exists candidate user,
       verify_vote s (Vote.confirmation_code v)
       = (s, VoteRecord v (Some candidate) (Some user))
       /\ Candidate.id candidate = Vote.candidate_id v
       /\ User.id user = Vote.user_id v)
  /\ (forall code,
        (forall v, In v (votes s) -> Vote.confirmation_code v <> code) ->
        verify_vote s code = (s, Err NotFound)).
Proof.
  intros Hreach. apply reachable_integrity in Hreach.
  destruct Hreach as [[p1 p2 p3 p4 u1 u2 u3] fu fc ov vv oa pi].
  split.
  - intros v Hv. unfold verify_vote.
    rewrite (find_unique Vote.confirmation_code str_eqb (votes s) v str_eqb_eq u3 Hv).
    destruct (get_in Candidate.id _ _ (fc v Hv)) as [c Hc].
    destruct (get_in User.id _ _ (fu v Hv)) as [u Hu].
    rewrite Hc, Hu. exists c, u. split; [reflexivity|].
    apply get_some in Hc. apply get_some in Hu. tauto.
  - intros code Hcode. unfold verify_vote.
    rewrite find_all_false; [reflexivity|].
    intros v Hv. apply str_eqb_neq. auto.
Qed.

(** X22.  In every state the application reaches, the election the index
    page shows is the election that is active: it shows an election
    exactly when that election is in the table with its active flag set,
    and none exactly when no election is active. *)
Theorem index_shows_the_active_election s :
  reachable P verification s ->
  (forall e,
     index s = IndexPage (candidates s) (Some e) <->
     In e (elections s) /\ Election.is_active e = true)
  /\ (index s = IndexPage (candidates s) None <->
      forall e, In e (elections s) -> Election.is_active e = false).
Proof.
  intros Hreach. apply reachable_integrity in Hreach.
  destruct Hreach as [[p1 p2 p3 p4 u1 u2 u3] fu fc ov vv oa pi].
  unfold index, active_election.
  destruct (find Election.is_active (elections s)) as [a|] eqn:Hfind.
  - pose proof (find_some _ _ Hfind) as [Hin Hact]. split.
    + intros e. split.
      * intros H; injection H as <-. auto.
      * intros [He Ae]. do 2 f_equal.
        apply (at_most_one_active_unique (elections s)); auto.
    + split; [discriminate|]. intros H. apply H in Hin. congruence.
  - split.
    + intros e. split; [discriminate|]. intros [He Ae].
      apply (find_none _ _ Hfind) in He. congruence.
    + split; [|reflexivity]. intros _ e He.
      now apply (find_none _ _ Hfind) in He.
Qed.

(** X23.  For an account that is not an administrator the dashboard agrees
    with [vote]: it is the pending page exactly when a vote would be
    refused as not verified, and it reports that the account has voted,
    showing a vote of that account, exactly when a vote would be refused
    as already cast. *)
Theorem dashboard_agrees_with_vote s sess cu candidate_id utcnow uuid4 :
  current_user s sess = Some cu ->
  User.is_admin cu = false ->
  (dashboard verification s sess = VerificationPendingPage <->
   vote verification s sess candidate_id utcnow uuid4 = (s, Err NotVerified))
  /\ ((exists v,
         dashboard verification s sess
         = DashboardPage (candidates s) (active_election s) true (Some v)
         /\ In v (votes s) /\ Vote.user_id v = User.id cu) <->
      vote verification s sess candidate_id utcnow uuid4 = (s, Err AlreadyVoted)).
Proof.
  intros Hcu Hadm. unfold dashboard, vote. rewrite Hcu, Hadm.
  destruct (verification && negb (User.is_verified cu)).
  { split; [tauto|]. split; [intros (v & H & _); discriminate | discriminate]. }
  destruct (find (fun v => Vote.user_id v =? User.id cu) (votes s)) as [v|] eqn:Hf.
  - pose proof (find_some _ _ Hf) as [Hin Hown]. apply Nat.eqb_eq in Hown.
    replace (existsb _ (votes s)) with true
      by (symmetry; apply existsb_exists; exists v; split;
          [assumption | now apply Nat.eqb_eq]).
    split; [split; discriminate|]. split; [reflexivity|].
    intros _. exists v. auto.
  - rewrite (existsb_none _ (votes s)) by (apply (find_none _ _ Hf)).
    split; [split; [discriminate|]|].
    + each_path; discriminate.
    + split; [intros (v & H & _); discriminate|].
      each_path; discriminate.
Qed.

(** X24.  In every state the application reaches with verification
    required, the accounts on the administrator's list of pending
    verifications are exactly the accounts whose login, with a password
    their hash accepts, is refused as pending. *)
Theorem pending_list_is_who_cannot_log_in s u password :
  reachable P true s ->
  In u (users s) ->
  check_password_hash P (User.password u) password = Some true ->
  (In u (pending_users s) <->
   login P true s (Some (User.username u)) password
   = (s, Err PendingVerification)).
Proof.
  intros Hreach Hu Hpw. apply reachable_integrity in Hreach.
  destruct Hreach as [[p1 p2 p3 p4 u1 u2 u3] fu fc ov vv oa pi].
  unfold login, pending_users. rewrite (find_by_username _ _ u1 Hu), Hpw.
  rewrite filter_In. cbn [andb].
  destruct (User.is_admin u), (User.is_verified u); cbn [negb andb];
    split; try discriminate; try tauto; intros [_ H]; discriminate.
Qed.

(** ** Approving and rejecting accounts *)

(** X25.  Rejecting an account touches that account only: the other
    accounts and every vote of another account stay, the candidates and the
    elections are what they were. *)
Theorem reject_user_spares_the_others s sess user_id s' :
  reject_user s sess user_id = (s', Saved) ->
  (forall u, In u (users s') <-> In u (users s) /\ User.id u <> user_id)
  /\ (forall v, In v (votes s') <-> In v (votes s) /\ Vote.user_id v <> user_id)
  /\ (forall other, other <> user_id -> votes_of s' other = votes_of s other)
  /\ candidates s' = candidates s
  /\ elections s' = elections s.
Proof.
  unfold reject_user, as_admin.
  destruct (current_user s sess) as [cu|]; [|discriminate].
  destruct (User.is_admin cu); [|discriminate].
  destruct (get User.id user_id (users s)) as [user|] eqn:Hget; [|discriminate].
  apply get_some in Hget. destruct Hget as [_ Hid]. rewrite Hid.
  intros H; injection H as <-. cbn [users votes candidates elections].
  split; [|split; [|split; [|split; reflexivity]]].
  - intros u. unfold delete_row. rewrite filter_In, negb_true_iff, Nat.eqb_neq.
    tauto.
  - intros v. rewrite filter_In, negb_true_iff, Nat.eqb_neq. tauto.
  - intros other Hother. unfold votes_of. cbn [votes].
    apply filter_filter_absorb. intros v Hv. apply Nat.eqb_eq in Hv.
    apply negb_true_iff, Nat.eqb_neq. congruence.
Qed.

Lemma update_row_twice {A} (key : A -> nat) i f rows :
  (forall r, key (f r) = key r) -> (forall r, f (f r) = f r) ->
  update_row key i f (update_row key i f rows) = update_row key i f rows.
Proof.
  intros Hkey Hf. unfold update_row. rewrite map_map. apply map_ext.
  intros r. destruct (key r =? i) eqn:E; [|now rewrite E].
  now rewrite Hkey, E, Hf.
Qed.

(** X26.  Approving and promoting are idempotent: once [verify_user], or
    [make_admin], has succeeded, the same request again succeeds and leaves
    the store as it is. *)
Theorem approval_is_idempotent s sess user_id :
  (snd (verify_user s sess user_id) = Saved ->
   verify_user (fst (verify_user s sess user_id)) sess user_id
   = (fst (verify_user s sess user_id), Saved))
  /\ (snd (make_admin s sess user_id) = Saved ->
      make_admin (fst (make_admin s sess user_id)) sess user_id
      = (fst (make_admin s sess user_id), Saved)).
Proof.
  split.
  - unfold verify_user at 1 3 4. unfold as_admin.
    destruct (current_user s sess) as [cu|] eqn:Hcu; [|discriminate].
    destruct (User.is_admin cu) eqn:Hadm; [|discriminate].
    destruct (get User.id user_id (users s)) as [u|] eqn:Hget; [|discriminate].
    intros _. cbn [fst]. unfold verify_user, as_admin, current_user.
    cbn [users set_users].
    destruct sess as [i|]; [|discriminate]. cbn [current_user] in Hcu.
    rewrite !get_update_row by reflexivity. rewrite Hcu, Hget. cbn [option_map].
    replace (User.is_admin _) with true
      by (destruct (User.id cu =? user_id); simpl; congruence).
    unfold set_users. cbn [users candidates votes elections uploads].
    now rewrite update_row_twice.
  - unfold make_admin at 1 3 4. unfold as_admin.
    destruct (current_user s sess) as [cu|] eqn:Hcu; [|discriminate].
    destruct (User.is_admin cu) eqn:Hadm; [|discriminate].
    destruct (get User.id user_id (users s)) as [u|] eqn:Hget; [|discriminate].
    intros _. cbn [fst]. unfold make_admin, as_admin, current_user.
    cbn [users set_users].
    destruct sess as [i|]; [|discriminate]. cbn [current_user] in Hcu.
    rewrite !get_update_row by reflexivity. rewrite Hcu, Hget. cbn [option_map].
    replace (User.is_admin _) with true
      by (destruct (User.id cu =? user_id); simpl; congruence).
    unfold set_users. cbn [users candidates votes elections uploads].
    now rewrite update_row_twice.
Qed.

(** ** The proof of identity *)

(** X27.  When [register] creates an account from a form with an uploaded
    proof, the file is stored under a name made of the document type, the
    document number and the drawn token, never of the name the upload came
    with; the account references that file, the file exists, and the
    administrator's proof page shows the account.  Without an upload the
    account references no file and that page answers "ID proof not
    found!". *)
Theorem register_stores_the_proof s f s' u sess admin :
  register P verification s f = (s', Registered u) ->
  current_user s sess = Some admin ->
  User.is_admin admin = true ->
  (forall c name, RegisterForm.id_proof f = Some (c :: name) ->
     let path :=
       py "id_proofs/" ++
       secure_filename P
         (fmt (RegisterForm.id_type f) ++ py "_" ++
          fmt (RegisterForm.id_number f) ++ py "_" ++
          RegisterForm.uuid4 f ++ py ".jpg") in
     User.id_proof_image u = Some path
     /\ In path (uploads s')
     /\ view_id_proof s' sess (User.id u) = IdProofPage u)
  /\ (RegisterForm.id_proof f = None \/ RegisterForm.id_proof f = Some [] ->
      User.id_proof_image u = None
      /\ uploads s' = uploads s
      /\ view_id_proof s' sess (User.id u) = Refused NotFound).
Proof.
  intros Hreg Hcu Hadm.
  destruct (register_success P verification s f s' u Hreg)
    as (un & em & h & fs & img & _ & _ & _ & _ & Hproof & Hu & ->).
  assert (Hid : User.id u = next_id (map User.id (users s))) by now rewrite Hu.
  assert (Hget : get User.id (User.id u) (users s ++ [u]) = Some u).
  { unfold get. apply find_snoc_fresh; [|apply Nat.eqb_refl].
    apply existsb_none. intros x Hx. apply Nat.eqb_neq. intros Heq.
    apply (next_id_fresh (map User.id (users s))). rewrite <- Hid, <- Heq.
    now apply in_map. }
  assert (Hcu' : current_user (set_users (set_uploads s fs) (users s ++ [u])) sess
                 = Some admin).
  { destruct sess as [i|]; [|discriminate]. cbn [current_user users set_users] in *.
    unfold get in *. now apply find_app_some. }
  assert (Himg : User.id_proof_image u = img) by now rewrite Hu.
  unfold view_id_proof, page_as_admin. rewrite Hcu', Hadm.
  cbn [users set_users uploads set_uploads]. rewrite Hget, Himg.
  unfold store_id_proof in Hproof. split.
  - intros c name Hf. rewrite Hf in Hproof. cbv zeta.
    unfold save_file in Hproof.
    destruct (secure_filename P _) as [|c0 n0] eqn:Hname; [discriminate|].
    injection Hproof as <- <-.
    split; [reflexivity|]. split; [|reflexivity].
    apply in_or_app. right. now left.
  - intros [Hf | Hf]; rewrite Hf in Hproof; injection Hproof as <- <-;
      repeat split; reflexivity.
Qed.

(** ** Leaving no election active *)

(** X28.  From a store with distinct election keys and at most one active
    election, deleting the active election, or saving it with the active box
    unticked, leaves no election active. *)
Theorem active_election_can_be_withdrawn s sess admin election_id election :
  NoDup (map Election.id (elections s)) ->
  at_most_one_active (elections s) ->
  current_user s sess = Some admin ->
  User.is_admin admin = true ->
  get Election.id election_id (elections s) = Some election ->
  Election.is_active election = true ->
  active_election (fst (delete_election s sess election_id)) = None
  /\ (forall f, ElectionForm.is_active f = false ->
                snd (edit_election P s sess election_id f) = Saved ->
                active_election (fst (edit_election P s sess election_id f)) = None).
Proof.
  intros Hnd Hone Hcu Hadm Hget Hact.
  pose proof (get_some _ _ _ _ Hget) as [Hin Hid].
  assert (Hothers : forall e, In e (elections s) -> Election.id e <> election_id ->
                              Election.is_active e = false).
  { intros e He Hne. destruct (Election.is_active e) eqn:Ae; [|reflexivity].
    exfalso. apply Hne.
    rewrite (at_most_one_active_unique _ e election Hone He Hin Ae Hact).
    assumption. }
  unfold active_election. split.
  - unfold delete_election, as_admin. rewrite Hcu, Hadm, Hget.
    cbn [fst elections set_elections]. apply find_all_false.
    intros e He. apply filter_In in He. destruct He as [He Hne].
    apply Hothers; [assumption|].
    apply negb_true_iff, Nat.eqb_neq in Hne. congruence.
  - intros f Hf. unfold edit_election, as_admin. rewrite Hcu, Hadm, Hget.
    destruct (strptime P _); [|discriminate].
    destruct (strptime P _); [|discriminate].
    destruct (ElectionForm.title f); [|discriminate].
    intros _. rewrite Hf. cbn [andb fst elections set_elections].
    apply find_all_false. intros e He. apply in_update_row in He.
    destruct He as (e0 & He0 & [[Hne ->] | [_ ->]]); [|reflexivity].
    now apply Hothers.
Qed.

End Extras.

(* ------------------------------------------------------------------ *)
(** * The further properties on concrete runs *)


(** Alice registers and tries to log in at once. *)
Lemma registered_account_is_pending_witness :
  let s := run demo true run_startup empty_store in
  exists s' u,
    register demo true s (form_of "alice" "aadhaar" "123456789012")
    = (s', Registered u)
    /\ login demo true s' (Some (User.username u)) (Some (py "secret"))
       = (s', Err PendingVerification).
Proof.
  intros s.
  destruct (register demo true s (form_of "alice" "aadhaar" "123456789012"))
    as [s' r] eqn:E.
  destruct r as [u| | | | | | |];
    try (exfalso; vm_compute in E; discriminate).
  pose proof (registered_account_is_pending demo s _ s' u (Some (py "secret")) E)
    as H.
  exists s', u. split; [reflexivity|]. rewrite H.
  vm_compute in E. injection E as _ <-. vm_compute. reflexivity.
Defined.


(** The administrator promotes Alice before approving her. *)
Lemma promoted_account_skips_verification_witness :
  let s := run demo true run_pending empty_store in
  exists s' alice,
    make_admin s admin_session 2 = (s', Saved)
    /\ User.is_verified alice = false
    /\ login demo true s' (Some (py "alice")) (Some (py "secret"))
       = (s', LoggedIn alice)
    /\ vote true s' (Some 2) 1 0%Z (py "code-1") = (s', Err NotVerified).
Proof.
  intros s.
  assert (Hr : reachable demo true s) by (exists run_pending; reflexivity).
  destruct (current_user s admin_session) as [admin|] eqn:Hcu;
    [|vm_compute in Hcu; discriminate].
  assert (Hadm : User.is_admin admin = true)
    by (vm_compute in Hcu; injection Hcu as <-; reflexivity).
  destruct (get User.id 2 (users s)) as [user|] eqn:Hu;
    [|vm_compute in Hu; discriminate].
  assert (Hname : User.username user = py "alice")
    by (vm_compute in Hu; injection Hu as <-; vm_compute; reflexivity).
  assert (Hver : User.is_verified user = false)
    by (vm_compute in Hu; injection Hu as <-; reflexivity).
  assert (Hpw : check_password_hash demo (User.password user) (Some (py "secret"))
                = Some true)
    by (vm_compute in Hu; injection Hu as <-; vm_compute; reflexivity).
  destruct (promoted_account_skips_verification demo s admin_session admin 2 user
              (Some (py "secret")) Hr Hcu Hadm Hu Hver Hpw)
    as (s' & user' & H1 & _ & H2 & H3 & H4).
  exists s', user'. rewrite Hname in H3. auto.
Defined.

(** Alice across her approval. *)
Lemma accounts_keep_identity_and_flags_witness :
  let s := run demo true run_pending empty_store in
  exists alice alice',
    In alice (users s)
    /\ In alice' (users (fst (handle demo true s (VerifyUser admin_session 2))))
    /\ User.is_verified alice = false /\ User.is_verified alice' = true
    /\ same_account alice alice'.
Proof.
  intros s.
  assert (Hr : reachable demo true s) by (exists run_pending; reflexivity).
  destruct (get User.id 2 (users s)) as [u|] eqn:Hu;
    [|vm_compute in Hu; discriminate].
  destruct (get User.id 2
              (users (fst (handle demo true s (VerifyUser admin_session 2)))))
    as [u'|] eqn:Hu'; [|vm_compute in Hu'; discriminate].
  pose proof (get_some _ _ _ _ Hu) as [Hin Hid].
  pose proof (get_some _ _ _ _ Hu') as [Hin' Hid'].
  exists u, u'. split; [exact Hin|]. split; [exact Hin'|].
  split; [vm_compute in Hu; injection Hu as <-; reflexivity|].
  split; [vm_compute in Hu'; injection Hu' as <-; reflexivity|].
  apply (accounts_keep_identity_and_flags demo true s
           (VerifyUser admin_session 2) u u' Hr Hin Hin').
  now rewrite Hid, Hid'.
Defined.

(** Alice, a voter, asks for a candidate to be deleted. *)
Lemma admin_routes_refuse_others_witness :
  let s := run demo true run_poll empty_store in
  handle demo true s (DeleteCandidate (Some 2) 1) = (s, Err Unauthorized)
  /\ handle demo true s (DeleteCandidate None 1) = (s, Err LoginRequired).
Proof.
  intros s.
  assert (Hcu : exists cu, current_user s (Some 2) = Some cu
                           /\ User.is_admin cu = false).
  { vm_compute. eexists. split; reflexivity. }
  destruct Hcu as (cu & Hcu & Hadm).
  assert (Hnone : current_user s None = None) by reflexivity.
  split.
  - exact (proj2 (admin_routes_refuse_others demo true s
                    (DeleteCandidate (Some 2) 1) (Some 2) eq_refl) cu Hcu Hadm).
  - exact (proj1 (admin_routes_refuse_others demo true s
                    (DeleteCandidate None 1) None eq_refl) Hnone).
Defined.

(** Deleting candidate B of the poll removes the administrator's vote. *)
Lemma votes_only_cast_or_cascaded_witness :
  let s := run demo true run_poll empty_store in
  let r := DeleteCandidate admin_session 2 in
  exists v,
    In v (votes s)
    /\ ~ In v (votes (fst (handle demo true s r)))
    /\ ((exists sess, r = DeleteCandidate sess (Vote.candidate_id v))
        \/ (exists sess, r = RejectUser sess (Vote.user_id v))).
Proof.
  intros s r.
  destruct (get Vote.id 1 (votes s)) as [v|] eqn:Hv;
    [|vm_compute in Hv; discriminate].
  assert (Hin : In v (votes s)) by exact (proj1 (get_some _ _ _ _ Hv)).
  assert (Hn : ~ In v (votes (fst (handle demo true s r)))).
  { intros Hn. vm_compute in Hv. injection Hv as <-. vm_compute in Hn.
    destruct Hn as [Hn | []]. discriminate Hn. }
  exists v. split; [exact Hin|]. split; [exact Hn|].
  exact (proj2 (votes_only_cast_or_cascaded demo true s r v) Hin Hn).
Defined.

(** Candidate B of the poll is deleted. *)
Lemma delete_candidate_cascades_witness :
  let s := run demo true run_poll empty_store in
  exists s',
    delete_candidate s admin_session 2 = (s', Saved)
    /\ get Candidate.id 2 (candidates s') = None
    /\ forall v, In v (votes s') -> Vote.candidate_id v <> 2.
Proof.
  intros s.
  destruct (current_user s admin_session) as [admin|] eqn:Hcu;
    [|vm_compute in Hcu; discriminate].
  assert (Hadm : User.is_admin admin = true)
    by (vm_compute in Hcu; injection Hcu as <-; reflexivity).
  destruct (get Candidate.id 2 (candidates s)) as [c|] eqn:Hc;
    [|vm_compute in Hc; discriminate].
  destruct (delete_candidate_cascades s admin_session admin 2 c Hcu Hadm Hc)
    as (s' & H1 & H2 & H3 & _).
  exists s'. auto.
Defined.

(** A third candidate joins the poll. *)
Lemma new_candidate_has_no_votes_witness :
  let s := run demo true run_poll empty_store in
  exists s' c,
    add_candidate demo s admin_session (candidate_form "C") = (s', Saved)
    /\ candidates s' = candidates s ++ [c]
    /\ vote_count s' c = 0.
Proof.
  intros s.
  assert (Hr : reachable demo true s) by (exists run_poll; reflexivity).
  destruct (add_candidate demo s admin_session (candidate_form "C"))
    as [s' r] eqn:E.
  destruct r as [| | | | | | |e];
    try (exfalso; vm_compute in E; discriminate).
  destruct (new_candidate_has_no_votes demo true s admin_session _ s' Hr E)
    as (c & H1 & _ & _ & _ & _ & H2 & _).
  exists s', c. auto.
Defined.

(** Bob registers after Alice was rejected and gets her key, not her
    vote. *)
Lemma new_account_has_no_votes_witness :
  let s := run demo true run_rejected empty_store in
  exists s' bob,
    register demo true s (form_of "bob" "voter_id" "ABC1234567")
    = (s', Registered bob)
    /\ User.id bob = 2
    /\ votes_of s' (User.id bob) = [].
Proof.
  intros s.
  assert (Hr : reachable demo true s) by (exists run_rejected; reflexivity).
  destruct (register demo true s (form_of "bob" "voter_id" "ABC1234567"))
    as [s' r] eqn:E.
  destruct r as [u| | | | | | |];
    try (exfalso; vm_compute in E; discriminate).
  destruct (new_account_has_no_votes demo true s _ s' u Hr E)
    as (_ & _ & _ & _ & H).
  exists s', u. split; [reflexivity|]. split; [|exact H].
  vm_compute in E. injection E as _ <-. reflexivity.
Defined.

(** The administrator votes for the only candidate. *)
Lemma cast_vote_counts_once_witness :
  let s := run demo true run_one_candidate empty_store in
  exists s' v,
    vote true s admin_session 1 0%Z (py "code-1") = (s', VoteCast v)
    /\ length (votes s') = S (length (votes s)).
Proof.
  intros s.
  destruct (vote true s admin_session 1 0%Z (py "code-1")) as [s' r] eqn:E.
  destruct r as [| |v| | | | |];
    try (exfalso; vm_compute in E; discriminate).
  destruct (cast_vote_counts_once true s admin_session 1 0%Z (py "code-1") s' v E)
    as (_ & H & _).
  exists s', v. auto.
Defined.

(** Twelve digits are no voter id and no PAN. *)
Lemma validators_exclude_one_another_witness :
  validate_aadhaar demo (py "123456789012") = true
  /\ validate_voter_id demo (py "123456789012") = false
  /\ validate_pan demo (py "123456789012") = false.
Proof.
  assert (H : validate_aadhaar demo (py "123456789012") = true)
    by (vm_compute; reflexivity).
  split; [exact H|].
  exact (proj1 (validators_exclude_one_another demo (py "123456789012")) H).
Defined.

(** A registration whose passwords differ. *)
Lemma register_outcome_witness :
  let s := run demo true run_startup empty_store in
  let f := RegisterForm.mk (Some (py "alice")) (Some (py "a@example.com"))
             (Some (py "secret")) (Some (py "other"))
             (Some (py "aadhaar")) (Some (py "123456789012"))
             (Some (py "scan.jpg")) (py "0000") (py "s") in
  snd (register demo true s f) = Err PasswordMismatch
  /\ fst (register demo true s f) = s.
Proof.
  intros s f.
  assert (H : snd (register demo true s f) = Err PasswordMismatch)
    by (vm_compute; reflexivity).
  split; [exact H|].
  apply (proj1 (register_outcome demo true s f) PasswordMismatch H).
  discriminate.
Defined.

(** In the poll, Carol asks for Alice's username. *)
Lemma accounts_are_unique_witness :
  let s := run demo true run_poll empty_store in
  register demo true s (form_of "alice" "pan" "ABCDE1234F")
  = (s, Err UsernameTaken).
Proof.
  intros s.
  assert (Hr : reachable demo true s) by (exists run_poll; reflexivity).
  assert (Hu : exists u, In u (users s) /\ User.username u = py "alice").
  { vm_compute. eexists. split; [right; left; reflexivity | reflexivity]. }
  destruct Hu as (u & Hu & Hname).
  destruct (accounts_are_unique demo true s Hr) as (_ & H & _).
  apply (H _ u Hu).
  - vm_compute; reflexivity.
  - rewrite Hname. vm_compute; reflexivity.
Defined.

(** Start-up on the empty database, twice. *)
Lemma startup_is_idempotent_witness :
  let s := fst (create_tables_and_admin demo empty_store (py "s")) in
  length (users s) = 1
  /\ create_tables_and_admin demo s (py "t") = (s, Saved).
Proof.
  intros s. split; [vm_compute; reflexivity|].
  apply (startup_is_idempotent demo empty_store (py "s") (py "t")).
  vm_compute; reflexivity.
Defined.

(** The administrator is gone and Mallory holds the administrator's
    address: the next start-up fails. *)
Lemma startup_fails_when_address_taken_witness :
  let s := run demo true run_admin_address_taken empty_store in
  reachable demo true s
  /\ create_tables_and_admin demo s (py "s") = (s, Err ServerError).
Proof.
  intros s.
  split; [exists run_admin_address_taken; reflexivity|].
  assert (Hu : exists u, users s = [u]
                         /\ User.username u <> py "admin"
                         /\ User.email u = py "admin@example.com").
  { vm_compute. eexists. split; [reflexivity|]. split; [discriminate | reflexivity]. }
  destruct Hu as (u & Hus & Hname & Hem).
  apply (startup_fails_when_address_taken demo s (py "s") u).
  - intros x Hx. rewrite Hus in Hx. destruct Hx as [<- | []]. exact Hname.
  - rewrite Hus. now left.
  - exact Hem.
Defined.

(** The administrator votes and is sent to the confirmation page. *)
Lemma vote_then_confirmation_witness :
  let s := run demo true run_one_candidate empty_store in
  exists s' v candidate,
    vote true s admin_session 1 0%Z (py "code-1") = (s', VoteCast v)
    /\ vote_confirmation s' admin_session (Vote.id v)
       = (s', Confirmation v (Some candidate)).
Proof.
  intros s.
  destruct (vote true s admin_session 1 0%Z (py "code-1")) as [s' r] eqn:E.
  destruct r as [| |v| | | | |];
    try (exfalso; vm_compute in E; discriminate E).
  destruct (vote_then_confirmation true s admin_session 1 0%Z (py "code-1") s' v E)
    as ((candidate & _ & H) & _).
  exists s', v, candidate. split; [reflexivity | exact H].
Defined.

(** The second vote of the poll, looked up by its code. *)
Lemma verify_vote_finds_every_vote_witness :
  let s := run demo true run_poll empty_store in
  exists v candidate user,
    verify_vote s (py "code-2") = (s, VoteRecord v (Some candidate) (Some user))
    /\ verify_vote s (py "code-9") = (s, Err NotFound).
Proof.
  intros s.
  assert (Hr : reachable demo true s) by (exists run_poll; reflexivity).
  destruct (verify_vote_finds_every_vote demo true s Hr) as [Hfound Hmissing].
  assert (Hv : exists v, In v (votes s) /\ Vote.confirmation_code v = py "code-2").
  { vm_compute. eexists. split; [right; left; reflexivity | reflexivity]. }
  destruct Hv as (v & Hv & Hcode).
  destruct (Hfound v Hv) as (c & u & H & _).
  exists v, c, u. rewrite Hcode in H. split; [exact H|].
  apply Hmissing. intros x Hx. vm_compute in Hx.
  destruct Hx as [<- | [<- | [<- | []]]]; vm_compute; discriminate.
Defined.

(** Of the two elections, the index page shows the first. *)
Lemma index_shows_the_active_election_witness :
  let s := run demo true run_elections empty_store in
  exists e,
    index s = IndexPage (candidates s) (Some e) /\ Election.id e = 1.
Proof.
  intros s.
  assert (Hr : reachable demo true s) by (exists run_elections; reflexivity).
  assert (He : exists e, In e (elections s) /\ Election.is_active e = true
                         /\ Election.id e = 1).
  { vm_compute. eexists. split; [left; reflexivity|]. split; reflexivity. }
  destruct He as (e & He & Hact & Hid).
  exists e. split; [|exact Hid].
  apply (proj1 (index_shows_the_active_election demo true s Hr)). auto.
Defined.

(** Alice has voted in the poll: her dashboard says so and a second vote
    is refused. *)
Lemma dashboard_agrees_with_vote_witness :
  let s := run demo true run_poll empty_store in
  vote true s (Some 2) 1 0%Z (py "code-4") = (s, Err AlreadyVoted)
  /\ exists v,
       dashboard true s (Some 2)
       = DashboardPage (candidates s) (active_election s) true (Some v).
Proof.
  intros s.
  assert (Hcu : exists cu, current_user s (Some 2) = Some cu
                           /\ User.is_admin cu = false).
  { vm_compute. eexists. split; reflexivity. }
  destruct Hcu as (cu & Hcu & Hadm).
  assert (Hvote : vote true s (Some 2) 1 0%Z (py "code-4") = (s, Err AlreadyVoted))
    by (vm_compute; reflexivity).
  split; [exact Hvote|].
  destruct (proj2 (proj2 (dashboard_agrees_with_vote true s (Some 2) cu 1 0%Z
                            (py "code-4") Hcu Hadm)) Hvote)
    as (v & H & _).
  exists v. exact H.
Defined.

(** Alice, registered and not approved, is on the list and cannot log in. *)
Lemma pending_list_is_who_cannot_log_in_witness :
  let s := run demo true run_pending empty_store in
  exists alice,
    In alice (pending_users s)
    /\ login demo true s (Some (User.username alice)) (Some (py "secret"))
       = (s, Err PendingVerification).
Proof.
  intros s.
  assert (Hr : reachable demo true s) by (exists run_pending; reflexivity).
  assert (Hu : exists u, In u (users s) /\ In u (pending_users s)
                 /\ check_password_hash demo (User.password u) (Some (py "secret"))
                    = Some true).
  { vm_compute. eexists. split; [right; left; reflexivity|].
    split; [left; reflexivity | reflexivity]. }
  destruct Hu as (u & Hu & Hp & Hpw).
  exists u. split; [exact Hp|].
  exact (proj1 (pending_list_is_who_cannot_log_in demo s u (Some (py "secret"))
                  Hr Hu Hpw) Hp).
Defined.

(** Alice is rejected; Bob's vote stays. *)
Lemma reject_user_spares_the_others_witness :
  let s := run demo true run_poll empty_store in
  exists s',
    reject_user s admin_session 2 = (s', Saved)
    /\ votes_of s' 3 = votes_of s 3
    /\ candidates s' = candidates s.
Proof.
  intros s.
  destruct (reject_user s admin_session 2) as [s' r] eqn:E.
  destruct r as [| | | | | | |e];
    try (exfalso; vm_compute in E; discriminate E).
  destruct (reject_user_spares_the_others s admin_session 2 s' E)
    as (_ & _ & H & Hc & _).
  exists s'. split; [reflexivity|]. split; [|exact Hc].
  apply H. discriminate.
Defined.

(** Alice is approved twice. *)
Lemma approval_is_idempotent_witness :
  let s := run demo true run_pending empty_store in
  let s' := fst (verify_user s admin_session 2) in
  verify_user s' admin_session 2 = (s', Saved).
Proof.
  intros s s'.
  apply (proj1 (approval_is_idempotent s admin_session 2)).
  vm_compute; reflexivity.
Defined.

(** Alice registers with a scan of her card. *)
Lemma register_stores_the_proof_witness :
  let s := run demo true run_startup empty_store in
  exists s' alice path,
    register demo true s (form_of "alice" "aadhaar" "123456789012")
    = (s', Registered alice)
    /\ User.id_proof_image alice = Some path
    /\ In path (uploads s')
    /\ view_id_proof s' admin_session (User.id alice) = IdProofPage alice.
Proof.
  intros s.
  destruct (register demo true s (form_of "alice" "aadhaar" "123456789012"))
    as [s' r] eqn:E.
  destruct r as [u| | | | | | |];
    try (exfalso; vm_compute in E; discriminate E).
  assert (Hcu : exists admin, current_user s admin_session = Some admin
                              /\ User.is_admin admin = true).
  { vm_compute. eexists. split; reflexivity. }
  destruct Hcu as (admin & Hcu & Hadm).
  destruct (proj1 (register_stores_the_proof demo true s _ s' u admin_session admin
                     E Hcu Hadm) _ _ eq_refl)
    as (H1 & H2 & H3).
  exists s', u. eexists. split; [reflexivity|]. split; [exact H1|].
  split; [exact H2 | exact H3].
Defined.

(** The active election of the two is deleted. *)
Lemma active_election_can_be_withdrawn_witness :
  let s := run demo true run_elections empty_store in
  active_election (fst (delete_election s admin_session 1)) = None.
Proof.
  intros s.
  assert (Hnd : NoDup (map Election.id (elections s))).
  { vm_compute. repeat constructor; simpl; intuition discriminate. }
  assert (Hact : at_most_one_active (elections s)).
  { vm_compute. lia. }
  assert (Hcu : exists admin, current_user s admin_session = Some admin
                              /\ User.is_admin admin = true).
  { vm_compute. eexists. split; reflexivity. }
  destruct Hcu as (admin & Hcu & Hadm).
  assert (He : exists e, get Election.id 1 (elections s) = Some e
                         /\ Election.is_active e = true).
  { vm_compute. eexists. split; reflexivity. }
  destruct He as (e & He & Hon).
  exact (proj1 (active_election_can_be_withdrawn demo s admin_session admin 1 e
                  Hnd Hact Hcu Hadm He Hon)).
Defined.
